(** * Outpatient forecast simulation (hospital_app/app.py)

    A shallow embedding of the prediction run of [app.py]: the calendar
    rule that classifies the target day and the day before it, the two
    one-row feature frames built for every half-hour slot, the three
    boosters chained through the lag list and the carried queue, and the
    rows collected for the result table.

    Python integers are [Z].  A booster's score is a finite float, taken
    as the rational number it denotes ([Q]).  A raised exception is the
    [Raise] case of [result]; the run threads it through a small error
    monad.  A one-row pandas frame is an association list of column name
    and cell, in column order, repeated names allowed.

    Left out: the Streamlit widgets and the plot, which only feed the
    run and display its table, and the range limits of pandas
    timestamps. *)

From Stdlib Require Import ZArith QArith Qround Qabs Lqa Lia.
From Stdlib Require Import String Ascii List Bool Sorting.Sorted DecimalString.
From Stdlib Require DecimalNat.
Import ListNotations.

Local Open Scope Z_scope.

(** ** Exceptions *)

Inductive exn : Type :=
| KeyError (key : string)
| ValueError
| AttributeError
| OverflowError
| PredictError.

Inductive result (A : Type) : Type :=
| Ok (a : A)
| Raise (e : exn).

Arguments Ok {A} a.
Arguments Raise {A} e.

Definition bind {A B : Type} (r : result A) (k : A -> result B) : result B :=
  match r with
  | Ok a => k a
  | Raise e => Raise e
  end.

Declare Scope result_scope.
Delimit Scope result_scope with result.
Notation "x <- r ;; k" := (bind r (fun x => k))
  (at level 61, r at next level, right associativity) : result_scope.

Definition is_ok {A : Type} (r : result A) : bool :=
  match r with Ok _ => true | Raise _ => false end.

(** ** Python built-ins used by the run *)

Module Py.

(** [round(x)] on a float: the nearest integer, a tie going to the even
    neighbour. *)
Definition round (x : Q) : Z :=
  let f := Qfloor x in
  match Qcompare (x - inject_Z f) (1 # 2) with
  | Lt => f
  | Gt => f + 1
  | Eq => if Z.even f then f else f + 1
  end.

(** [int(max(0, round(x)))], the expression applied to each score. *)
Definition clamp_round (x : Q) : Z := Z.max 0 (round x).

(** [int(b)] on a bool. *)
Definition int_of_bool (b : bool) : Z := if b then 1 else 0.

(** [needle in hay] on strings.  Strings are UTF-8 byte sequences here;
    a well-formed needle occurs between code-point boundaries only, so
    the byte search agrees with Python's search on code points. *)
Fixpoint str_contains (needle hay : string) : bool :=
  String.prefix needle hay
  || match hay with
     | EmptyString => false
     | String _ rest => str_contains needle rest
     end.

(** [str(n)] for a non-negative integer. *)
Definition str_of_Z (n : Z) : string :=
  NilZero.string_of_uint (Nat.to_uint (Z.to_nat n)).

(** The [%H] and [%M] fields of [strftime]: two digits, zero padded. *)
Definition two_digits (n : Z) : string :=
  if n <? 10 then ("0" ++ str_of_Z n)%string else str_of_Z n.

(** [xs[:n]] *)
Definition slice_to {A : Type} (n : nat) (xs : list A) : list A := firstn n xs.

End Py.

(** ** datetime.date *)

Module Datetime.

Record date : Type := mkdate { year : Z; month : Z; day : Z }.

Definition _is_leap (y : Z) : bool :=
  (y mod 4 =? 0) && (negb (y mod 100 =? 0) || (y mod 400 =? 0)).

Definition _days_before_year (y : Z) : Z :=
  let y' := y - 1 in y' * 365 + y' / 4 - y' / 100 + y' / 400.

Definition _DAYS_IN_MONTH (m : Z) : Z :=
  match m with
  | 1 => 31 | 2 => 28 | 3 => 31 | 4 => 30 | 5 => 31 | 6 => 30
  | 7 => 31 | 8 => 31 | 9 => 30 | 10 => 31 | 11 => 30 | 12 => 31
  | _ => -1
  end.

Definition _DAYS_BEFORE_MONTH (m : Z) : Z :=
  match m with
  | 1 => 0 | 2 => 31 | 3 => 59 | 4 => 90 | 5 => 120 | 6 => 151
  | 7 => 181 | 8 => 212 | 9 => 243 | 10 => 273 | 11 => 304 | 12 => 334
  | _ => -1
  end.

Definition _days_in_month (y m : Z) : Z :=
  if (m =? 2) && _is_leap y then 29 else _DAYS_IN_MONTH m.

Definition _days_before_month (y m : Z) : Z :=
  _DAYS_BEFORE_MONTH m + Py.int_of_bool ((2 <? m) && _is_leap y).

Definition _ymd2ord (y m d : Z) : Z :=
  _days_before_year y + _days_before_month y m + d.

Definition _DI400Y : Z := 146097.
Definition _DI100Y : Z := 36524.
Definition _DI4Y : Z := 1461.
Definition _MAXORDINAL : Z := 3652059.

Definition _ord2ymd (n : Z) : date :=
  let n := n - 1 in
  let n400 := n / _DI400Y in
  let n := n mod _DI400Y in
  let y := n400 * 400 + 1 in
  let n100 := n / _DI100Y in
  let n := n mod _DI100Y in
  let n4 := n / _DI4Y in
  let n := n mod _DI4Y in
  let n1 := n / 365 in
  let n := n mod 365 in
  let y := y + n100 * 100 + n4 * 4 + n1 in
  if (n1 =? 4) || (n100 =? 4) then mkdate (y - 1) 12 31
  else
    let leapyear := (n1 =? 3) && (negb (n4 =? 24) || (n100 =? 3)) in
    let m := Z.shiftr (n + 50) 5 in
    let preceding := _DAYS_BEFORE_MONTH m + Py.int_of_bool ((2 <? m) && leapyear) in
    if n <? preceding then
      let m := m - 1 in
      let preceding :=
        preceding - (_DAYS_IN_MONTH m + Py.int_of_bool ((m =? 2) && leapyear)) in
      mkdate y m (n - preceding + 1)
    else mkdate y m (n - preceding + 1).

(** The dates the [date] constructor accepts. *)
Definition valid_date (d : date) : bool :=
  (1 <=? year d) && (year d <=? 9999)
  && (1 <=? month d) && (month d <=? 12)
  && (1 <=? day d) && (day d <=? _days_in_month (year d) (month d)).

Definition toordinal (d : date) : Z := _ymd2ord (year d) (month d) (day d).

Definition fromordinal (n : Z) : date := _ord2ymd n.

(** [d.weekday()]: Monday is 0, Sunday is 6. *)
Definition weekday (d : date) : Z := (toordinal d + 6) mod 7.

(** The numbers [weekday] gives to Wednesday, Saturday and Sunday. *)
Definition wednesday : Z := 2.
Definition saturday : Z := 5.
Definition sunday : Z := 6.

(** [date.min] *)
Definition date_min : date := mkdate 1 1 1.

(** [d - timedelta(days=n)] *)
Definition sub_days (d : date) (n : Z) : result date :=
  let o := toordinal d - n in
  if (0 <? o) && (o <=? _MAXORDINAL) then Ok (fromordinal o)
  else Raise OverflowError.

(** [d + timedelta(days=n)] *)
Definition add_days (d : date) (n : Z) : result date :=
  let o := toordinal d + n in
  if (0 <? o) && (o <=? _MAXORDINAL) then Ok (fromordinal o)
  else Raise OverflowError.

(** A month from 1 to 12 and a day that the month has, in any year. *)
Definition wf_date (d : date) : Prop :=
  1 <= month d <= 12 /\ 1 <= day d <= _days_in_month (year d) (month d).

End Datetime.

(** ** pandas: one-row frames, timestamps, date ranges *)

Module Pandas.

Import Datetime.

(** A frame with the single row [index=[0]]: its columns from left to
    right, each with its cell. *)
Definition DataFrame : Type := list (string * Z).

Definition columns (df : DataFrame) : list string := map fst df.

(** [c in df.columns] *)
Definition has_column (c : string) (df : DataFrame) : bool :=
  existsb (String.eqb c) (columns df).

(** [pd.DataFrame(0, index=[0], columns=cols)] *)
Definition zeros (cols : list string) : DataFrame :=
  map (fun c => (c, 0)) cols.

(** [df[c] = v]: every column named [c] receives [v]; when there is
    none, a new column is appended on the right. *)
Definition setitem (df : DataFrame) (c : string) (v : Z) : DataFrame :=
  if has_column c df
  then map (fun kv => if String.eqb (fst kv) c then (fst kv, v) else kv) df
  else df ++ [(c, v)].

(** The columns of [df] named [c], in frame order. *)
Definition named (c : string) (df : DataFrame) : DataFrame :=
  filter (fun kv => String.eqb (fst kv) c) df.

(** [df[cols]]: for each requested name in turn, the columns carrying
    it; a name the frame does not have raises [KeyError]. *)
Fixpoint getitem_list (df : DataFrame) (cols : list string) : result DataFrame :=
  match cols with
  | [] => Ok []
  | c :: rest =>
      match named c df with
      | [] => Raise (KeyError c)
      | hit => bind (getitem_list df rest) (fun tl => Ok (hit ++ tl))
      end
  end.

(** [df.loc[0, c]] for a column name carried once; [None] otherwise. *)
Definition cell (c : string) (df : DataFrame) : option Z :=
  match named c df with
  | [(_, v)] => Some v
  | _ => None
  end.

(** A timestamp of minute resolution: its calendar day and the minutes
    elapsed since midnight. *)
Record Timestamp : Type := mkts { ts_date : date; ts_minutes : Z }.

(** [pd.Timestamp(d)]: midnight of [d]. *)
Definition Timestamp_of_date (d : date) : Timestamp := mkts d 0.

(** [ts.replace(hour=h, minute=m)] *)
Definition replace (ts : Timestamp) (h m : Z) : Timestamp :=
  mkts (ts_date ts) (h * 60 + m).

Definition hour (ts : Timestamp) : Z := ts_minutes ts / 60.
Definition minute (ts : Timestamp) : Z := ts_minutes ts mod 60.

(** [ts.strftime("%H:%M")] *)
Definition strftime_HM (ts : Timestamp) : string :=
  (Py.two_digits (hour ts) ++ ":" ++ Py.two_digits (minute ts))%string.

(** [pd.date_range(start=s, end=e, freq=...)] for two timestamps of one
    day and a step of [freq] minutes: [s], [s + freq], ... up to and
    including the last one that is not after [e]. *)
Definition date_range (s e : Timestamp) (freq : Z) : list Timestamp :=
  if (0 <? freq) && (ts_minutes s <=? ts_minutes e)
  then map (fun k => mkts (ts_date s) (ts_minutes s + Z.of_nat k * freq))
           (seq 0 (S (Z.to_nat ((ts_minutes e - ts_minutes s) / freq))))
  else [].

End Pandas.

(** ** xgboost: matrices and boosters *)

Module Xgb.

Import Pandas.

(** The matrix built from a one-row frame keeps the frame's column names
    as feature names, next to the cells. *)
Definition DMatrix : Type := list (string * Z).

Fixpoint unique (names : list string) : bool :=
  match names with
  | [] => true
  | n :: rest => negb (existsb (String.eqb n) rest) && unique rest
  end.

(** An integer pandas keeps in an int64 or a uint64 column.  A cell
    outside this range turns its column into an object column. *)
Definition numeric_cell (v : Z) : bool :=
  (- 2 ^ 63 <=? v) && (v <? 2 ^ 64).

(** A feature name the constructor accepts: one without [[], []] and [<]. *)
Definition valid_feature_name (s : string) : bool :=
  negb (Py.str_contains "[" s || Py.str_contains "]" s
        || Py.str_contains "<" s).

(** [xgb.DMatrix(df)] on a one-row frame of integers.  The constructor
    refuses an object column ([ValueError]); then a repeated column name,
    over which it stumbles while it reads the columns one by one
    ([AttributeError]); then a feature name with a bracket or [<] in it
    ([ValueError]). *)
Definition make_DMatrix (df : DataFrame) : result DMatrix :=
  if negb (forallb numeric_cell (map snd df)) then Raise ValueError
  else if negb (unique (columns df)) then Raise AttributeError
  else if negb (forallb valid_feature_name (columns df)) then Raise ValueError
  else Ok df.

(** A schema on which the constructor can build a matrix: no name twice,
    every name acceptable. *)
Definition schema_accepted (cols : list string) : bool :=
  unique cols && forallb valid_feature_name cols.

(** [model.predict(d)[0]] for a loaded booster.  The booster is opaque:
    [Ok q] is a finite score, [Raise] any failure of the call, a
    non-finite score (on which [round] raises) included. *)
Definition Booster : Type := DMatrix -> result Q.

End Xgb.

(** ** The prediction run of app.py *)

Module App.

Import Datetime Pandas Xgb.

Local Open Scope string_scope.
Local Open Scope Z_scope.
Local Open Scope result_scope.

(** What [load_models()] returns: the three boosters and the column
    lists of the two model families. *)
Record Models : Type := mkModels {
  count_model : Booster;
  waittime_model : Booster;
  queue_model : Booster;
  count_cols : list string;
  multi_cols : list string
}.

(** The sidebar inputs. *)
Record Inputs : Type := mkInputs {
  target_date : date;
  total_patients : Z;
  weather : string
}.

(** The options of the weather select box. *)
Definition weather_options : list string :=
  ["晴"; "曇"; "雨"; "雪"; "快晴"; "薄曇"].

(** Column names written by the run. *)
Definition col_hour : string := "hour".
Definition col_minute : string := "minute".
Definition col_is_holiday : string := "is_holiday".
Definition col_total : string := "total_outpatient_count".
Definition col_prev_holiday : string := "前日祝日フラグ".
Definition col_rain : string := "雨フラグ".
Definition col_snow : string := "雪フラグ".
Definition col_reception : string := "reception_count".
Definition col_queue_at_start : string := "queue_at_start_of_slot".

(** [int("雨" in weather)] and [int("雪" in weather)] *)
Definition rain_flag (w : string) : Z := Py.int_of_bool (Py.str_contains "雨" w).
Definition snow_flag (w : string) : Z := Py.int_of_bool (Py.str_contains "雪" w).

(** [f"lag_{(i+1)*30}min"] *)
Definition lag_col (i : nat) : string :=
  "lag_" ++ Py.str_of_Z ((Z.of_nat i + 1) * 30) ++ "min".

(** One line of the result table: the keys 時間帯, 予測受付数,
    予測待ち人数(人) and 予測平均待ち時間(分) of the appended dict. *)
Record Row : Type := mkRow {
  time_label : string;
  predicted_arrivals : Z;
  predicted_queue : Z;
  predicted_wait : Z
}.

(** The local variables of one pass through the slot loop. *)
Record Iteration : Type := mkIteration {
  it_ts : Timestamp;
  it_lags : list Z;              (* lags on entry *)
  it_queue_at_start : Z;         (* queue_at_start on entry *)
  it_dcount : DMatrix;
  it_count_raw : Q;              (* count_model.predict(dcount)[0] *)
  it_reception : Z;
  it_dmulti : DMatrix;
  it_queue_raw : Q;              (* queue_model.predict(dmulti)[0] *)
  it_queue_pred : Z;
  it_wait_raw : Q;               (* waittime_model.predict(dmulti)[0] *)
  it_wait_pred : Z;
  it_row : Row;                  (* the dict appended to results *)
  it_lags_next : list Z;         (* lags on exit *)
  it_queue_next : Z              (* queue_at_start on exit *)
}.

Section Run.

(** [jpholiday.is_holiday], the public-holiday table. *)
Variable jpholiday_is_holiday : date -> bool.

(** The expression evaluated on [target_date] and again on [prev_date]. *)
Definition non_working_day (d : date) : bool :=
  jpholiday_is_holiday d
  || (5 <=? weekday d)
  || ((month d =? 12) && (29 <=? day d))
  || ((month d =? 1) && (day d <=? 3)).

Definition is_holiday (inp : Inputs) : bool :=
  non_working_day (target_date inp).

Definition prev_date (inp : Inputs) : result date :=
  sub_days (target_date inp) 1.

Definition is_prev_holiday (inp : Inputs) : result bool :=
  d <- prev_date inp ;; Ok (non_working_day d).

Definition time_slots (d : date) : list Timestamp :=
  date_range (replace (Timestamp_of_date d) 8 0)
             (replace (Timestamp_of_date d) 18 0) 30.

(** [for i, lag in enumerate(lags)]: a lag column is written only when
    the frame has it. *)
Fixpoint assign_lags (df : DataFrame) (i : nat) (lags : list Z) : DataFrame :=
  match lags with
  | [] => df
  | lag :: rest =>
      let col := lag_col i in
      assign_lags (if has_column col df then setitem df col lag else df)
                  (S i) rest
  end.

Section Slot.

Variable m : Models.
Variables hol prev_hol : bool.   (* is_holiday, is_prev_holiday *)
Variable total : Z.              (* total_patients *)
Variable w : string.             (* weather *)

Definition df_count (lags : list Z) (ts : Timestamp) : DataFrame :=
  let df := zeros (count_cols m) in
  let df := setitem df col_hour (hour ts) in
  let df := setitem df col_minute (minute ts) in
  let df := setitem df col_is_holiday (Py.int_of_bool hol) in
  let df := setitem df col_total total in
  let df := setitem df col_prev_holiday (Py.int_of_bool prev_hol) in
  let df := setitem df col_rain (rain_flag w) in
  let df := setitem df col_snow (snow_flag w) in
  assign_lags df 0 lags.

Definition df_multi (reception queue_at_start : Z) (ts : Timestamp) : DataFrame :=
  let df := zeros (multi_cols m) in
  let df := setitem df col_hour (hour ts) in
  let df := setitem df col_minute (minute ts) in
  let df := setitem df col_reception reception in
  let df := setitem df col_queue_at_start queue_at_start in
  let df := setitem df col_is_holiday (Py.int_of_bool hol) in
  let df := setitem df col_total total in
  let df := setitem df col_prev_holiday (Py.int_of_bool prev_hol) in
  let df := setitem df col_rain (rain_flag w) in
  let df := setitem df col_snow (snow_flag w) in
  df.

(** [xgb.DMatrix(df_count[count_cols])] *)
Definition dcount_of (lags : list Z) (ts : Timestamp) : result DMatrix :=
  sel <- getitem_list (df_count lags ts) (count_cols m) ;;
  make_DMatrix sel.

(** [xgb.DMatrix(df_multi[multi_cols])] *)
Definition dmulti_of (reception queue_at_start : Z) (ts : Timestamp)
  : result DMatrix :=
  sel <- getitem_list (df_multi reception queue_at_start ts) (multi_cols m) ;;
  make_DMatrix sel.

(** The body of [for ts in time_slots]. *)
Definition slot_body (lags : list Z) (queue_at_start : Z) (ts : Timestamp)
  : result Iteration :=
  dcount <- dcount_of lags ts ;;
  count_raw <- count_model m dcount ;;
  let reception := Py.clamp_round count_raw in
  dmulti <- dmulti_of reception queue_at_start ts ;;
  queue_raw <- queue_model m dmulti ;;
  let queue_pred := Py.clamp_round queue_raw in
  wait_raw <- waittime_model m dmulti ;;
  let wait_pred := Py.clamp_round wait_raw in
  let row := mkRow (strftime_HM ts) reception queue_pred wait_pred in
  Ok (mkIteration ts lags queue_at_start
        dcount count_raw reception
        dmulti queue_raw queue_pred wait_raw wait_pred
        row
        (reception :: Py.slice_to 2 lags) queue_pred).

(** The loop, started with the given [lags] and [queue_at_start]. *)
Fixpoint slot_loop (slots : list Timestamp) (lags : list Z) (queue_at_start : Z)
  : result (list Iteration) :=
  match slots with
  | [] => Ok []
  | ts :: rest =>
      it <- slot_body lags queue_at_start ts ;;
      its <- slot_loop rest (it_lags_next it) (it_queue_next it) ;;
      Ok (it :: its)
  end.

End Slot.

(** The block under [if run_button]: the passes of the loop in order. *)
Definition run_trace (m : Models) (inp : Inputs) : result (list Iteration) :=
  let hol := is_holiday inp in
  prev_hol <- is_prev_holiday inp ;;
  slot_loop m hol prev_hol (total_patients inp) (weather inp)
            (time_slots (target_date inp)) [0; 0; 0] 0.

(** [results], the rows behind [result_df]. *)
Definition run (m : Models) (inp : Inputs) : result (list Row) :=
  trace <- run_trace m inp ;; Ok (map it_row trace).

End Run.

(** ** The cell each schema column ends up with *)

(** The cell function after [df[c] = v]. *)
Definition upd (f : string -> Z) (c : string) (v : Z) : string -> Z :=
  fun k => if String.eqb k c then v else f k.

(** The cell function after the lag loop. *)
Fixpoint lag_cells (f : string -> Z) (i : nat) (lags : list Z) : string -> Z :=
  match lags with
  | [] => f
  | lag :: rest => lag_cells (upd f (lag_col i) lag) (S i) rest
  end.

(** The cells of the count frame, by column name. *)
Definition count_cells (hol prev_hol : bool) (total : Z) (w : string)
    (lags : list Z) (ts : Timestamp) : string -> Z :=
  let f := fun _ : string => 0 in
  let f := upd f col_hour (hour ts) in
  let f := upd f col_minute (minute ts) in
  let f := upd f col_is_holiday (Py.int_of_bool hol) in
  let f := upd f col_total total in
  let f := upd f col_prev_holiday (Py.int_of_bool prev_hol) in
  let f := upd f col_rain (rain_flag w) in
  let f := upd f col_snow (snow_flag w) in
  lag_cells f 0 lags.

(** The cells of the queue and wait frame, by column name. *)
Definition multi_cells (hol prev_hol : bool) (total : Z) (w : string)
    (reception queue_at_start : Z) (ts : Timestamp) : string -> Z :=
  let f := fun _ : string => 0 in
  let f := upd f col_hour (hour ts) in
  let f := upd f col_minute (minute ts) in
  let f := upd f col_reception reception in
  let f := upd f col_queue_at_start queue_at_start in
  let f := upd f col_is_holiday (Py.int_of_bool hol) in
  let f := upd f col_total total in
  let f := upd f col_prev_holiday (Py.int_of_bool prev_hol) in
  let f := upd f col_rain (rain_flag w) in
  let f := upd f col_snow (snow_flag w) in
  f.

(** A frame laid out by a schema: first the schema's columns in order,
    each holding the cell [f] gives it, then columns whose names the
    schema does not list. *)
Definition laid_out (cols : list string) (f : string -> Z) (df : DataFrame)
  : Prop :=
  exists extras,
    df = (map (fun c => (c, f c)) cols ++ extras)%list
    /\ Forall (fun kv => ~ In (fst kv) cols) extras.

(** [c in cols] for a schema. *)
Definition listed (c : string) (cols : list string) : bool :=
  existsb (String.eqb c) cols.

(** The names the count frame assigns, given the number of lags. *)
Definition count_assigned (nlags : nat) : list string :=
  ([col_hour; col_minute; col_is_holiday; col_total; col_prev_holiday;
    col_rain; col_snow] ++ map lag_col (seq 0 nlags))%list.

(** The names the queue and wait frame assigns. *)
Definition multi_assigned : list string :=
  [col_hour; col_minute; col_reception; col_queue_at_start; col_is_holiday;
   col_total; col_prev_holiday; col_rain; col_snow].

(** [lags] and [queue_at_start] on entry to pass [n] of a loop started
    with [lags0] and [q0], read off the passes before it. *)
Definition state_before (lags0 : list Z) (q0 : Z) (its : list Iteration)
    (n : nat) : list Z * Z :=
  match n with
  | O => (lags0, q0)
  | S k =>
      match nth_error its k with
      | Some p => (it_lags_next p, it_queue_next p)
      | None => (lags0, q0)
      end
  end.

(** What one successful pass of the loop body establishes, for the
    state [lags], [q] it was entered with and the slot [ts]. *)
Record slot_pass (m : Models) (hol prev_hol : bool) (total : Z) (w : string)
    (lags : list Z) (q : Z) (ts : Timestamp) (it : Iteration) : Prop := {
  pass_ts : it_ts it = ts;
  pass_lags : it_lags it = lags;
  pass_queue_at_start : it_queue_at_start it = q;
  pass_count_unique : unique (count_cols m) = true;
  pass_multi_unique : unique (multi_cols m) = true;
  pass_dcount :
    it_dcount it =
    map (fun k => (k, count_cells hol prev_hol total w lags ts k)) (count_cols m);
  pass_count_raw : count_model m (it_dcount it) = Ok (it_count_raw it);
  pass_reception : it_reception it = Py.clamp_round (it_count_raw it);
  pass_dmulti :
    it_dmulti it =
    map (fun k => (k, multi_cells hol prev_hol total w (it_reception it) q ts k))
        (multi_cols m);
  pass_queue_raw : queue_model m (it_dmulti it) = Ok (it_queue_raw it);
  pass_queue_pred : it_queue_pred it = Py.clamp_round (it_queue_raw it);
  pass_wait_raw : waittime_model m (it_dmulti it) = Ok (it_wait_raw it);
  pass_wait_pred : it_wait_pred it = Py.clamp_round (it_wait_raw it);
  pass_row :
    it_row it =
    mkRow (strftime_HM ts) (it_reception it) (it_queue_pred it) (it_wait_pred it);
  pass_lags_next : it_lags_next it = it_reception it :: firstn 2 lags;
  pass_queue_next : it_queue_next it = it_queue_pred it
}.

Arguments pass_ts {m hol prev_hol total w lags q ts it} _.
Arguments pass_lags {m hol prev_hol total w lags q ts it} _.
Arguments pass_queue_at_start {m hol prev_hol total w lags q ts it} _.
Arguments pass_count_unique {m hol prev_hol total w lags q ts it} _.
Arguments pass_multi_unique {m hol prev_hol total w lags q ts it} _.
Arguments pass_dcount {m hol prev_hol total w lags q ts it} _.
Arguments pass_count_raw {m hol prev_hol total w lags q ts it} _.
Arguments pass_reception {m hol prev_hol total w lags q ts it} _.
Arguments pass_dmulti {m hol prev_hol total w lags q ts it} _.
Arguments pass_queue_raw {m hol prev_hol total w lags q ts it} _.
Arguments pass_queue_pred {m hol prev_hol total w lags q ts it} _.
Arguments pass_wait_raw {m hol prev_hol total w lags q ts it} _.
Arguments pass_wait_pred {m hol prev_hol total w lags q ts it} _.
Arguments pass_row {m hol prev_hol total w lags q ts it} _.
Arguments pass_lags_next {m hol prev_hol total w lags q ts it} _.
Arguments pass_queue_next {m hol prev_hol total w lags q ts it} _.

(** The labels from 08:00 to 18:00, half an hour apart. *)
Definition half_hour_labels : list string :=
  ["08:00"; "08:30"; "09:00"; "09:30"; "10:00"; "10:30"; "11:00";
   "11:30"; "12:00"; "12:30"; "13:00"; "13:30"; "14:00"; "14:30";
   "15:00"; "15:30"; "16:00"; "16:30"; "17:00"; "17:30"; "18:00"].

(** [date.today() + timedelta(days=1)], the date the picker opens on. *)
Definition default_target_date (today : date) : result date :=
  add_days today 1.

(** The same inputs under another weather. *)
Definition with_weather (inp : Inputs) (w : string) : Inputs :=
  mkInputs (target_date inp) (total_patients inp) w.

(** The same count booster and schemas with other queue and wait-time
    boosters. *)
Definition with_queue_and_wait (m : Models) (q w : Booster) : Models :=
  mkModels (count_model m) w q (count_cols m) (multi_cols m).

(** The arrivals predicted [j + 1] slots before slot [n] of a run, 0 when
    the run had not started by then. *)
Definition past_arrivals (trace : list Iteration) (n j : nat) : Z :=
  if (j <? n)%nat
  then match nth_error trace (n - 1 - j) with
       | Some p => predicted_arrivals (it_row p)
       | None => 0
       end
  else 0.

(** A pass as it would read at another timestamp. *)
Definition retime (ts : Timestamp) (it : Iteration) : Iteration :=
  mkIteration ts (it_lags it) (it_queue_at_start it)
    (it_dcount it) (it_count_raw it) (it_reception it)
    (it_dmulti it) (it_queue_raw it) (it_queue_pred it)
    (it_wait_raw it) (it_wait_pred it)
    (it_row it) (it_lags_next it) (it_queue_next it).

(** The same models with another wait-time booster. *)
Definition with_waittime (m : Models) (b : Booster) : Models :=
  mkModels (count_model m) b (queue_model m) (count_cols m) (multi_cols m).

(** A pass with its wait-time score and prediction blanked. *)
Definition forget_wait (it : Iteration) : Iteration :=
  mkIteration (it_ts it) (it_lags it) (it_queue_at_start it)
    (it_dcount it) (it_count_raw it) (it_reception it)
    (it_dmulti it) (it_queue_raw it) (it_queue_pred it)
    0%Q 0
    (mkRow (time_label (it_row it)) (predicted_arrivals (it_row it))
           (predicted_queue (it_row it)) 0)
    (it_lags_next it) (it_queue_next it).

End App.

(** ** A small run, used to exercise the statements below *)

Module Sample.

Import Datetime Pandas Xgb App.

Local Open Scope string_scope.
Local Open Scope Z_scope.

(** A two-entry holiday table: New Year's Day and Children's Day. *)
Definition holidays (d : date) : bool :=
  ((month d =? 1) && (day d =? 1)) || ((month d =? 5) && (day d =? 5)).

Definition score_or (c : string) (d : DMatrix) : Q :=
  match cell c d with Some v => inject_Z v | None => 0%Q end.

(** Arrivals: 7.6 plus half of the last slot's count. *)
Definition arrivals : Booster :=
  fun d => Ok ((76 # 10) + (1 # 2) * score_or "lag_30min" d)%Q.

(** Queue: the carried queue plus the arrivals, less 12.5 served. *)
Definition queue : Booster :=
  fun d => Ok (score_or col_queue_at_start d + score_or col_reception d
               - (25 # 2))%Q.

(** Wait: 1.5 minutes per carried person, less 2.4. *)
Definition wait : Booster :=
  fun d => Ok ((3 # 2) * score_or col_queue_at_start d - (24 # 10))%Q.

(** Another wait booster: a constant quarter of an hour. *)
Definition wait_flat : Booster := fun _ => Ok (15 # 1)%Q.

(** A booster whose every call fails. *)
Definition broken : Booster := fun _ => Raise PredictError.

(** Another queue booster: always three people. *)
Definition queue_steady : Booster := fun _ => Ok (3 # 1)%Q.

(** The wait booster, failing on the matrices of nine o'clock. *)
Definition wait_fails_at_nine : Booster :=
  fun d => match cell "hour" d with
           | Some 9 => Raise PredictError
           | _ => wait d
           end.

Definition models : Models :=
  mkModels arrivals wait queue
    ["hour"; "minute"; "is_holiday"; "total_outpatient_count";
     "前日祝日フラグ"; "雨フラグ"; "雪フラグ";
     "lag_30min"; "lag_60min"; "lag_90min"; "月"]
    ["hour"; "minute"; "reception_count"; "queue_at_start_of_slot";
     "is_holiday"; "total_outpatient_count"; "前日祝日フラグ";
     "雨フラグ"; "雪フラグ"].

(** The same boosters on schemas that list neither hour nor minute. *)
Definition models_no_clock : Models :=
  mkModels arrivals wait queue
    ["is_holiday"; "lag_30min"]
    ["reception_count"; "queue_at_start_of_slot"].

(** Tuesday 10 June 2025, 1200 patients, rain. *)
Definition inputs : Inputs := mkInputs (mkdate 2025 6 10) 1200 "雨".

Definition trace : list Iteration :=
  Eval vm_compute in
    match run_trace holidays models inputs with
    | Ok t => t
    | Raise _ => []
    end.

Definition trace_flat : list Iteration :=
  Eval vm_compute in
    match run_trace holidays (with_waittime models wait_flat) inputs with
    | Ok t => t
    | Raise _ => []
    end.

Definition rows : list Row := Eval vm_compute in map it_row trace.

Definition trace_steady : list Iteration :=
  Eval vm_compute in
    match run_trace holidays (with_queue_and_wait models queue_steady wait_flat)
                    inputs with
    | Ok t => t
    | Raise _ => []
    end.

(** Tuesday 10 June 2025 under a clear sky, and Thursday 18 September
    2025 under thin cloud. *)
Definition inputs_june : Inputs := mkInputs (mkdate 2025 6 10) 1200 "晴".
Definition inputs_september : Inputs := mkInputs (mkdate 2025 9 18) 1200 "薄曇".

Definition rows_june : list Row :=
  Eval vm_compute in
    match run holidays models inputs_june with Ok r => r | Raise _ => [] end.

Definition rows_september : list Row :=
  Eval vm_compute in
    match run holidays models inputs_september with Ok r => r | Raise _ => [] end.

Definition blank_pass : Iteration :=
  mkIteration (mkts date_min 0) [] 0 [] 0%Q 0 [] 0%Q 0 0%Q 0
              (mkRow "" 0 0 0) [] 0.

(** Pass [n] of the sample run, counted from 0. *)
Definition pass (n : nat) : Iteration := nth n trace blank_pass.

End Sample.

(** * Concrete checks of the embedding *)

Module Checks.

Import Datetime Pandas Xgb App.

Local Open Scope string_scope.
Local Open Scope Z_scope.

Example round_half_even :
  map Py.round [(1 # 2)%Q; (3 # 2)%Q; (5 # 2)%Q; (-1 # 2)%Q; (-3 # 2)%Q]
  = [0; 2; 2; 0; -2].
Proof. reflexivity. Qed.

Example round_fractions :
  map Py.round [(76 # 10)%Q; (-24 # 10)%Q; (74 # 10)%Q; (-26 # 10)%Q]
  = [8; -2; 7; -3].
Proof. reflexivity. Qed.

Example weekday_tuesday : weekday (mkdate 2025 6 10) = 1.
Proof. reflexivity. Qed.

Example ordinal_of_new_year : toordinal (mkdate 2025 1 1) = 739252.
Proof. reflexivity. Qed.

Example day_before_new_year :
  sub_days (mkdate 2025 1 1) 1 = Ok (mkdate 2024 12 31).
Proof. reflexivity. Qed.

Example day_before_march_in_leap_year :
  sub_days (mkdate 2024 3 1) 1 = Ok (mkdate 2024 2 29).
Proof. reflexivity. Qed.

Example day_before_date_min : sub_days date_min 1 = Raise OverflowError.
Proof. reflexivity. Qed.

Example lag_col_names : map lag_col [0; 1; 2]%nat
                        = ["lag_30min"; "lag_60min"; "lag_90min"].
Proof. reflexivity. Qed.

(** A column missing from the schema is appended by the assignment and
    dropped again by the selection. *)
Example setitem_then_select :
  let df := setitem (setitem (zeros ["a"; "b"]) "hour" 8) "b" 5 in
  df = [("a", 0); ("b", 5); ("hour", 8)]
  /\ getitem_list df ["a"; "b"] = Ok [("a", 0); ("b", 5)].
Proof. split; reflexivity. Qed.

(** A repeated schema name: every copy is assigned, the selection returns
    each copy once per request, and the matrix is refused. *)
Example repeated_schema_name :
  let df := setitem (zeros ["a"; "a"]) "a" 5 in
  getitem_list df ["a"; "a"] = Ok [("a", 5); ("a", 5); ("a", 5); ("a", 5)]
  /\ bind (getitem_list df ["a"; "a"]) make_DMatrix = Raise AttributeError.
Proof. split; reflexivity. Qed.

(** A failing booster ends the run: no table is returned. *)
Example broken_booster_is_fatal :
  run Sample.holidays (with_waittime Sample.models Sample.broken) Sample.inputs
  = Raise PredictError.
Proof. vm_compute. reflexivity. Qed.

Example first_day_has_no_previous_day :
  run Sample.holidays Sample.models (mkInputs date_min 1200 "晴")
  = Raise OverflowError.
Proof. vm_compute. reflexivity. Qed.

End Checks.

(** * Rounding *)

Module PyFacts.

Import Py.

Lemma round_cases (x : Q) :
  (round x = Qfloor x /\ (x - inject_Z (Qfloor x) <= 1 # 2)%Q)
  \/ (round x = Qfloor x + 1 /\ (1 # 2 <= x - inject_Z (Qfloor x))%Q).
Proof.
  unfold round.
  destruct (Qcompare_spec (x - inject_Z (Qfloor x)) (1 # 2)) as [E | L | G].
  - destruct (Z.even (Qfloor x)); [left | right]; split; trivial;
      rewrite E; apply Qle_refl.
  - left; split; trivial. apply Qlt_le_weak, L.
  - right; split; trivial. apply Qlt_le_weak, G.
Qed.

Lemma round_nearest (x : Q) : (Qabs (inject_Z (round x) - x) <= 1 # 2)%Q.
Proof.
  pose proof (Qfloor_le x) as Hlo.
  pose proof (Qlt_floor x) as Hhi.
  rewrite inject_Z_plus in Hhi. change (inject_Z 1) with 1%Q in Hhi.
  apply Qabs_Qle_condition.
  destruct (round_cases x) as [[-> H] | [-> H]].
  - split; lra.
  - rewrite inject_Z_plus. change (inject_Z 1) with 1%Q. split; lra.
Qed.

Lemma round_inject_Z (n : Z) : round (inject_Z n) = n.
Proof.
  unfold round. rewrite Qfloor_Z.
  destruct (Qcompare_spec (inject_Z n - inject_Z n) (1 # 2)) as [E | L | G];
    trivial; exfalso; lra.
Qed.

Lemma clamp_round_nonneg (x : Q) : 0 <= clamp_round x.
Proof. unfold clamp_round. lia. Qed.

Lemma clamp_round_cases (x : Q) :
  (round x <= 0 /\ clamp_round x = 0) \/ (0 < round x /\ clamp_round x = round x).
Proof. unfold clamp_round. lia. Qed.

End PyFacts.

(** * Frames laid out by a schema *)

Module FrameFacts.

Import Pandas Xgb App.

Lemma existsb_eqb_In (c : string) (l : list string) :
  existsb (String.eqb c) l = true <-> In c l.
Proof.
  rewrite existsb_exists. split.
  - intros [x [Hin Heq]]. apply String.eqb_eq in Heq. now subst.
  - intros Hin. exists c. split; trivial. apply String.eqb_refl.
Qed.

Lemma has_column_In (c : string) (df : DataFrame) :
  has_column c df = true <-> In c (columns df).
Proof. apply existsb_eqb_In. Qed.

Lemma unique_NoDup (l : list string) : unique l = true <-> NoDup l.
Proof.
  induction l as [| a l IH]; simpl.
  - split; [constructor | trivial].
  - rewrite andb_true_iff, negb_true_iff, IH. split.
    + intros [Hn Hd]. constructor; trivial.
      intros Hin. apply existsb_eqb_In in Hin. congruence.
    + intros H. inversion H as [| ? ? Hn Hd]; subst. split; trivial.
      destruct (existsb (String.eqb a) l) eqn:E; trivial.
      apply existsb_eqb_In in E. contradiction.
Qed.

Lemma columns_laid_out cols f df :
  laid_out cols f df -> incl cols (columns df).
Proof.
  intros [extras [-> _]] c Hin. unfold columns.
  rewrite map_app, map_map. simpl. rewrite map_id.
  apply in_or_app. now left.
Qed.

Lemma laid_out_zeros cols : laid_out cols (fun _ => 0) (zeros cols).
Proof. exists []. split; [now rewrite app_nil_r | constructor]. Qed.

Lemma laid_out_ext cols f g df :
  (forall c, In c cols -> f c = g c) -> laid_out cols f df -> laid_out cols g df.
Proof.
  intros Hfg [extras [-> Hex]]. exists extras. split; trivial.
  f_equal. apply map_ext_in. intros c Hin. now rewrite Hfg.
Qed.

Lemma upd_other f c v k : k <> c -> upd f c v k = f k.
Proof.
  intros Hne. unfold upd. destruct (String.eqb_spec k c); congruence.
Qed.

Lemma upd_same f c v : upd f c v c = v.
Proof. unfold upd. now rewrite String.eqb_refl. Qed.

Lemma laid_out_setitem cols f df c v :
  laid_out cols f df -> laid_out cols (upd f c v) (setitem df c v).
Proof.
  intros Hl. pose proof (columns_laid_out _ _ _ Hl) as Hincl.
  destruct Hl as [extras [-> Hex]]. unfold setitem.
  destruct (has_column c _) eqn:Hc.
  - exists (map (fun kv => if String.eqb (fst kv) c then (fst kv, v) else kv) extras).
    split.
    + rewrite map_app, map_map. f_equal. apply map_ext. intros k. simpl.
      unfold upd. now destruct (String.eqb k c).
    + rewrite Forall_map. eapply Forall_impl; [| exact Hex].
      intros kv Hkv. now destruct (String.eqb (fst kv) c).
  - assert (Hnot : ~ In c cols).
    { intros Hin. apply Hincl, has_column_In in Hin. congruence. }
    exists (extras ++ [(c, v)]). split.
    + rewrite <- app_assoc. f_equal. apply map_ext_in. intros k Hin.
      rewrite upd_other; trivial. intros ->. contradiction.
    + apply Forall_app. split; trivial. now constructor.
Qed.

Lemma laid_out_setitem_if cols f df c v :
  laid_out cols f df ->
  laid_out cols (upd f c v) (if has_column c df then setitem df c v else df).
Proof.
  intros Hl. destruct (has_column c df) eqn:Hc.
  - now apply laid_out_setitem.
  - apply laid_out_ext with (f := f); trivial.
    intros k Hin. rewrite upd_other; trivial. intros ->.
    apply (columns_laid_out _ _ _ Hl), has_column_In in Hin. congruence.
Qed.

Lemma laid_out_assign_lags cols lags : forall f df i,
  laid_out cols f df -> laid_out cols (lag_cells f i lags) (assign_lags df i lags).
Proof.
  induction lags as [| lag rest IH]; intros f df i Hl; simpl; trivial.
  apply IH. now apply laid_out_setitem_if.
Qed.

(** The frame before selection. *)
Lemma laid_out_df_count m hol prev_hol total w lags ts :
  laid_out (count_cols m) (count_cells hol prev_hol total w lags ts)
           (df_count m hol prev_hol total w lags ts).
Proof.
  unfold df_count, count_cells.
  apply laid_out_assign_lags.
  repeat apply laid_out_setitem. apply laid_out_zeros.
Qed.

Lemma laid_out_df_multi m hol prev_hol total w r q ts :
  laid_out (multi_cols m) (multi_cells hol prev_hol total w r q ts)
           (df_multi m hol prev_hol total w r q ts).
Proof.
  unfold df_multi, multi_cells.
  repeat apply laid_out_setitem. apply laid_out_zeros.
Qed.

(** Selection by the schema. *)
Lemma named_laid_out cols f df c :
  laid_out cols f df -> In c cols ->
  named c df = map (fun k => (k, f k)) (filter (fun k => String.eqb k c) cols).
Proof.
  intros [extras [-> Hex]] Hin. unfold named.
  rewrite filter_app.
  assert (Hnil : filter (fun kv : string * Z => String.eqb (fst kv) c) extras = []).
  { induction Hex as [| kv l Hkv _ IHl]; simpl; trivial.
    destruct (String.eqb_spec (fst kv) c) as [E |]; [| exact IHl].
    rewrite E in Hkv. contradiction. }
  rewrite Hnil, app_nil_r.
  clear. induction cols as [| k cols IH]; simpl; trivial.
  destruct (String.eqb k c); simpl; now rewrite IH.
Qed.

Lemma filter_eqb_In (c : string) cols :
  In c cols -> In c (filter (fun k => String.eqb k c) cols).
Proof. intros Hin. apply filter_In. split; trivial. apply String.eqb_refl. Qed.

Lemma getitem_list_laid_out cols f df :
  laid_out cols f df -> forall sub, incl sub cols ->
  getitem_list df sub =
  Ok (map (fun k => (k, f k))
          (flat_map (fun c => filter (fun k => String.eqb k c) cols) sub)).
Proof.
  intros Hl. induction sub as [| c sub IH]; intros Hincl; simpl; trivial.
  assert (Hin : In c cols) by (apply Hincl; now left).
  rewrite (named_laid_out _ _ _ _ Hl Hin).
  rewrite IH by (intros k Hk; apply Hincl; now right).
  pose proof (filter_eqb_In c cols Hin) as Hne.
  destruct (filter (fun k => String.eqb k c) cols) as [| k0 l0] eqn:E;
    [contradiction |].
  simpl. now rewrite map_app.
Qed.

Lemma filter_eqb_NoDup (c : string) cols :
  NoDup cols -> In c cols -> filter (fun k => String.eqb k c) cols = [c].
Proof.
  induction 1 as [| a l Hn Hd IH]; intros Hin; [contradiction |].
  simpl. destruct (String.eqb_spec a c) as [-> | Hne].
  - f_equal. clear IH Hin Hd.
    induction l as [| b l IHl]; simpl; trivial.
    destruct (String.eqb_spec b c) as [-> | _].
    + exfalso. apply Hn. now left.
    + apply IHl. intros H. apply Hn. now right.
  - destruct Hin as [-> | Hin]; [congruence | now apply IH].
Qed.

Lemma flat_map_filter_NoDup cols :
  NoDup cols -> forall sub, incl sub cols ->
  flat_map (fun c => filter (fun k => String.eqb k c) cols) sub = sub.
Proof.
  intros Hd. induction sub as [| c sub IH]; intros Hincl; simpl; trivial.
  rewrite filter_eqb_NoDup by (trivial; apply Hincl; now left).
  simpl. f_equal. apply IH. intros k Hk. apply Hincl. now right.
Qed.

Lemma NoDup_flat_map_filter cols : forall sub, incl sub cols ->
  NoDup (flat_map (fun c => filter (fun k => String.eqb k c) cols) sub) ->
  NoDup sub.
Proof.
  induction sub as [| c sub IH]; intros Hincl Hd; simpl in *; [constructor |].
  assert (Hin : In c cols) by (apply Hincl; now left).
  assert (Hsub : incl sub cols) by (intros k Hk; apply Hincl; now right).
  constructor.
  - intros Hc.
    assert (H1 : In c (filter (fun k => String.eqb k c) cols))
      by now apply filter_eqb_In.
    assert (H2 : In c (flat_map (fun c0 => filter (fun k => String.eqb k c0) cols) sub)).
    { apply in_flat_map. exists c. split; trivial. }
    apply in_split in H1. destruct H1 as [l1 [l2 E]]. rewrite E in Hd.
    rewrite <- app_assoc in Hd. simpl in Hd.
    apply NoDup_remove_2 in Hd. apply Hd.
    apply in_or_app. right. apply in_or_app. now right.
  - apply IH; trivial. eapply NoDup_app_remove_l. exact Hd.
Qed.

Lemma columns_cells (f : string -> Z) (l : list string) :
  columns (map (fun k => (k, f k)) l) = l.
Proof. unfold columns. rewrite map_map. simpl. apply map_id. Qed.

Lemma make_DMatrix_Ok df d :
  make_DMatrix df = Ok d ->
  d = df
  /\ forallb numeric_cell (map snd df) = true
  /\ unique (columns df) = true
  /\ forallb valid_feature_name (columns df) = true.
Proof.
  unfold make_DMatrix.
  destruct (forallb numeric_cell (map snd df)); [| discriminate].
  destruct (unique (columns df)); [| discriminate].
  destruct (forallb valid_feature_name (columns df)); [| discriminate].
  cbn [negb]. intros [= <-]. auto.
Qed.

(** The matrix constructor refuses a frame with a repeated name, with a
    name it does not accept, or with a cell that is not numeric. *)
Lemma make_DMatrix_refuses df :
  unique (columns df) = false
  \/ forallb valid_feature_name (columns df) = false
  \/ forallb numeric_cell (map snd df) = false ->
  is_ok (make_DMatrix df) = false.
Proof.
  unfold make_DMatrix.
  destruct (forallb numeric_cell (map snd df)); cbn [negb]; trivial.
  destruct (unique (columns df)); cbn [negb]; trivial.
  destruct (forallb valid_feature_name (columns df)); cbn [negb]; trivial.
  intros [H | [H | H]]; discriminate.
Qed.

(** Selecting a laid-out frame by its schema and handing it to the matrix
    constructor: the constructor sees the schema's columns in order, each
    with its cell, a repeated name as often as the square of its count. *)
Lemma select_matrix cols f df :
  laid_out cols f df ->
  bind (getitem_list df cols) make_DMatrix =
  make_DMatrix
    (map (fun k => (k, f k))
         (flat_map (fun c => filter (fun k => String.eqb k c) cols) cols)).
Proof.
  intros Hl.
  now rewrite (getitem_list_laid_out _ _ _ Hl cols) by apply incl_refl.
Qed.

(** A matrix that is built is the schema's columns in order, each with its
    cell, and its schema repeats no name. *)
Lemma select_matrix_Ok cols f df d :
  laid_out cols f df ->
  bind (getitem_list df cols) make_DMatrix = Ok d ->
  unique cols = true /\ d = map (fun k => (k, f k)) cols.
Proof.
  intros Hl H. rewrite (select_matrix _ _ _ Hl) in H.
  apply make_DMatrix_Ok in H. destruct H as [-> [_ [U _]]].
  rewrite columns_cells in U.
  apply unique_NoDup in U.
  assert (Hd : NoDup cols)
    by (apply NoDup_flat_map_filter in U; [exact U | apply incl_refl]).
  split; [now apply unique_NoDup |].
  now rewrite flat_map_filter_NoDup by (trivial; apply incl_refl).
Qed.

(** A schema that repeats a name is refused. *)
Lemma select_matrix_repeated cols f df :
  laid_out cols f df -> unique cols = false ->
  is_ok (bind (getitem_list df cols) make_DMatrix) = false.
Proof.
  intros Hl U.
  destruct (bind (getitem_list df cols) make_DMatrix) as [d |] eqn:E; trivial.
  apply (select_matrix_Ok _ _ _ _ Hl) in E. destruct E as [U' _]. congruence.
Qed.

(** Reading a cell back from a matrix. *)
Lemma cell_cells (f : string -> Z) (cols : list string) (c : string) :
  NoDup cols ->
  cell c (map (fun k => (k, f k)) cols) =
  if existsb (String.eqb c) cols then Some (f c) else None.
Proof.
  intros Hd. unfold cell.
  assert (E : named c (map (fun k => (k, f k)) cols)
              = map (fun k => (k, f k)) (filter (fun k => String.eqb k c) cols)).
  { unfold named. clear. induction cols as [| k cols IH]; simpl; trivial.
    destruct (String.eqb k c); simpl; now rewrite IH. }
  rewrite E. destruct (existsb (String.eqb c) cols) eqn:Hc.
  - apply existsb_eqb_In in Hc. now rewrite filter_eqb_NoDup.
  - assert (Hnil : filter (fun k => String.eqb k c) cols = []).
    { destruct (filter (fun k => String.eqb k c) cols) as [| k l] eqn:F; trivial.
      assert (Hk : In k (filter (fun k => String.eqb k c) cols))
        by (rewrite F; now left).
      apply filter_In in Hk. destruct Hk as [Hk Heq].
      apply String.eqb_eq in Heq. subst k.
      apply existsb_eqb_In in Hk. congruence. }
    now rewrite Hnil.
Qed.

End FrameFacts.

(** * The slot loop *)

Module LoopFacts.

Import Datetime Pandas Xgb App FrameFacts.

Lemma bind_Ok {A B : Type} (r : result A) (k : A -> result B) (b : B) :
  bind r k = Ok b -> exists a, r = Ok a /\ k a = Ok b.
Proof. destruct r as [a | e]; simpl; [eauto | discriminate]. Qed.

Lemma dcount_of_Ok m hol prev_hol total w lags ts d :
  dcount_of m hol prev_hol total w lags ts = Ok d ->
  unique (count_cols m) = true
  /\ d = map (fun k => (k, count_cells hol prev_hol total w lags ts k))
             (count_cols m).
Proof. apply select_matrix_Ok, laid_out_df_count. Qed.

Lemma dmulti_of_Ok m hol prev_hol total w r q ts d :
  dmulti_of m hol prev_hol total w r q ts = Ok d ->
  unique (multi_cols m) = true
  /\ d = map (fun k => (k, multi_cells hol prev_hol total w r q ts k))
             (multi_cols m).
Proof. apply select_matrix_Ok, laid_out_df_multi. Qed.

Lemma slot_body_pass m hol prev_hol total w lags q ts it :
  slot_body m hol prev_hol total w lags q ts = Ok it ->
  slot_pass m hol prev_hol total w lags q ts it.
Proof.
  unfold slot_body. intros H.
  apply bind_Ok in H. destruct H as [dcount [Hdc H]].
  apply bind_Ok in H. destruct H as [craw [Hc H]].
  apply bind_Ok in H. destruct H as [dmulti [Hdm H]].
  apply bind_Ok in H. destruct H as [qraw [Hq H]].
  apply bind_Ok in H. destruct H as [wraw [Hw H]].
  injection H as <-.
  apply dcount_of_Ok in Hdc. destruct Hdc as [Uc ->].
  apply dmulti_of_Ok in Hdm. destruct Hdm as [Um ->].
  constructor; simpl; trivial.
Qed.

Lemma slot_loop_length m hol prev_hol total w slots : forall lags q its,
  slot_loop m hol prev_hol total w slots lags q = Ok its ->
  length its = length slots.
Proof.
  induction slots as [| ts rest IH]; intros lags q its H; simpl in H.
  - now injection H as <-.
  - apply bind_Ok in H. destruct H as [it [_ H]].
    apply bind_Ok in H. destruct H as [tl [Htl H]].
    injection H as <-. simpl. f_equal. eapply IH, Htl.
Qed.

(** Every pass recorded by the loop is a pass of the body, on the slot
    of its position and from the state the pass before it left. *)
Lemma slot_loop_nth m hol prev_hol total w slots : forall lags q its,
  slot_loop m hol prev_hol total w slots lags q = Ok its ->
  forall n it, nth_error its n = Some it ->
  exists ts,
    nth_error slots n = Some ts
    /\ slot_pass m hol prev_hol total w
         (fst (state_before lags q its n)) (snd (state_before lags q its n))
         ts it.
Proof.
  induction slots as [| ts rest IH]; intros lags q its H n it Hn; simpl in H.
  - injection H as <-. destruct n; discriminate.
  - apply bind_Ok in H. destruct H as [it0 [Hb H]].
    apply bind_Ok in H. destruct H as [tl [Htl H]].
    injection H as <-.
    destruct n as [| n].
    + injection Hn as <-. exists ts. split; trivial.
      now apply slot_body_pass.
    + change (nth_error tl n = Some it) in Hn.
      destruct (IH _ _ _ Htl n it Hn) as [ts' [Hts Hp]].
      exists ts'. split; trivial.
      destruct n as [| k]; [exact Hp |].
      cbn [state_before nth_error] in Hp |- *.
      destruct (nth_error tl k) eqn:E; [exact Hp | exfalso].
      apply nth_error_None in E.
      assert (Hlt : (S k < length tl)%nat)
        by (apply nth_error_Some; congruence).
      lia.
Qed.

End LoopFacts.

Module DateFacts.

Import Datetime.

Lemma weekday_range (d : date) : 0 <= weekday d < 7.
Proof. unfold weekday. apply Z.mod_pos_bound. lia. Qed.

Lemma days_before_year_bounds (y : Z) :
  1 <= y <= 9999 -> 0 <= _days_before_year y <= 3651694.
Proof. unfold _days_before_year. intros H. cbv zeta. Z.div_mod_to_equations. lia. Qed.

Lemma month_cases (m : Z) :
  1 <= m <= 12 ->
  m = 1 \/ m = 2 \/ m = 3 \/ m = 4 \/ m = 5 \/ m = 6
  \/ m = 7 \/ m = 8 \/ m = 9 \/ m = 10 \/ m = 11 \/ m = 12.
Proof. lia. Qed.

Lemma valid_date_fields (d : date) :
  valid_date d = true ->
  1 <= year d <= 9999 /\ 1 <= month d <= 12
  /\ 1 <= day d <= _days_in_month (year d) (month d).
Proof.
  unfold valid_date. intros H.
  repeat (apply andb_true_iff in H; destruct H as [H ?]). lia.
Qed.

Lemma int_of_bool_range (b : bool) : 0 <= Py.int_of_bool b <= 1.
Proof. destruct b; simpl; lia. Qed.

(** Every date but [date.min] has a day before it. *)
Lemma sub_days_one_ok (d : date) :
  valid_date d = true -> d <> date_min -> is_ok (sub_days d 1) = true.
Proof.
  intros Hv Hne. apply valid_date_fields in Hv.
  destruct d as [y m dd]. simpl in Hv. destruct Hv as [Hy [Hm Hd]].
  unfold sub_days, toordinal, _ymd2ord, _days_before_month, _MAXORDINAL; simpl.
  pose proof (days_before_year_bounds y Hy) as Hby.
  pose proof (int_of_bool_range ((2 <? m) && _is_leap y)) as Hb.
  assert (Hdim : _days_in_month y m <= 31 /\ 0 <= _DAYS_BEFORE_MONTH m <= 334
                 /\ (m = 1 \/ 31 <= _DAYS_BEFORE_MONTH m)).
  { unfold _days_in_month.
    destruct (month_cases m Hm) as
      [-> | [-> | [-> | [-> | [-> | [-> | [-> | [-> | [-> | [-> | [-> | ->]]]]]]]]]]];
      simpl; try destruct (_is_leap y); lia. }
  assert (Hlow : 2 <= _days_before_year y + (_DAYS_BEFORE_MONTH m
                      + Py.int_of_bool ((2 <? m) && _is_leap y)) + dd).
  { destruct (Z.eq_dec y 1) as [-> | Hy1].
    - destruct Hdim as [_ [_ [-> | H31]]]; [| lia].
      assert (dd <> 1) by (intros ->; now apply Hne). simpl. lia.
    - unfold _days_before_year in *. cbv zeta in *.
      Z.div_mod_to_equations. lia. }
  destruct (Z.ltb_spec 0 (_days_before_year y + (_DAYS_BEFORE_MONTH m
              + Py.int_of_bool ((2 <? m) && _is_leap y)) + dd - 1)); [| lia].
  destruct (Z.leb_spec (_days_before_year y + (_DAYS_BEFORE_MONTH m
              + Py.int_of_bool ((2 <? m) && _is_leap y)) + dd - 1) 3652059);
    [reflexivity | lia].
Qed.

End DateFacts.

Module RunFacts.

Import Datetime Pandas Xgb App PyFacts FrameFacts LoopFacts DateFacts.

Lemma time_slots_eq (d : date) :
  time_slots d = map (fun k => mkts d (480 + Z.of_nat k * 30)) (seq 0 21).
Proof. reflexivity. Qed.

Lemma time_slots_nth (d : date) (n : nat) (ts : Timestamp) :
  nth_error (time_slots d) n = Some ts ->
  (n < 21)%nat /\ ts = mkts d (480 + Z.of_nat n * 30).
Proof.
  intros H.
  assert (Hlt : (n < 21)%nat).
  { assert (Hs : nth_error (time_slots d) n <> None) by (rewrite H; discriminate).
    apply nth_error_Some in Hs. exact Hs. }
  split; trivial.
  rewrite time_slots_eq, nth_error_map, nth_error_seq in H.
  apply Nat.ltb_lt in Hlt. rewrite Hlt in H. cbn [option_map Nat.add] in H.
  congruence.
Qed.

Lemma time_slots_labels (d : date) :
  map strftime_HM (time_slots d) = half_hour_labels.
Proof. reflexivity. Qed.

Lemma run_trace_Ok jp m inp trace :
  run_trace jp m inp = Ok trace ->
  exists prev,
    prev_date inp = Ok prev
    /\ is_prev_holiday jp inp = Ok (non_working_day jp prev)
    /\ slot_loop m (is_holiday jp inp) (non_working_day jp prev)
         (total_patients inp) (weather inp)
         (time_slots (target_date inp)) [0; 0; 0] 0 = Ok trace.
Proof.
  unfold run_trace, is_prev_holiday. intros H.
  destruct (prev_date inp) as [prev |]; [| discriminate].
  exists prev. auto.
Qed.

(** Every pass of a run, with the slot and the entry state it had. *)
Lemma run_trace_pass jp m inp trace :
  run_trace jp m inp = Ok trace ->
  exists prev_hol,
    is_prev_holiday jp inp = Ok prev_hol
    /\ length trace = 21%nat
    /\ forall n it, nth_error trace n = Some it ->
         slot_pass m (is_holiday jp inp) prev_hol
           (total_patients inp) (weather inp)
           (fst (state_before [0; 0; 0] 0 trace n))
           (snd (state_before [0; 0; 0] 0 trace n))
           (mkts (target_date inp) (480 + Z.of_nat n * 30)) it.
Proof.
  intros H. apply run_trace_Ok in H. destruct H as [prev [_ [Hp Hl]]].
  exists (non_working_day jp prev). split; trivial. split.
  - now rewrite (slot_loop_length _ _ _ _ _ _ _ _ _ Hl).
  - intros n it Hn.
    destruct (slot_loop_nth _ _ _ _ _ _ _ _ _ Hl n it Hn) as [ts [Hts Hpass]].
    apply time_slots_nth in Hts. destruct Hts as [_ ->]. exact Hpass.
Qed.

Lemma run_Ok jp m inp rows :
  run jp m inp = Ok rows ->
  exists trace, run_trace jp m inp = Ok trace /\ rows = map it_row trace.
Proof.
  unfold run. intros H. apply bind_Ok in H. destruct H as [t [Ht H]].
  injection H as <-. eauto.
Qed.

(** The state a pass is entered with, by position. *)
Lemma pass_entry jp m inp trace :
  run_trace jp m inp = Ok trace ->
  (forall it, nth_error trace 0 = Some it ->
     it_lags it = [0; 0; 0] /\ it_queue_at_start it = 0)
  /\ (forall n p it, nth_error trace n = Some p -> nth_error trace (S n) = Some it ->
        it_lags it = it_lags_next p /\ it_queue_at_start it = it_queue_next p).
Proof.
  intros H. destruct (run_trace_pass _ _ _ _ H) as [ph [_ [_ Hp]]]. split.
  - intros it H0. destruct (Hp 0%nat it H0) as [? Hl Hq']. now split.
  - intros n p it Hn HS. destruct (Hp (S n) it HS) as [? Hl Hq'].
    simpl in Hl, Hq'. rewrite Hn in Hl, Hq'. now split.
Qed.

Lemma lags_length_3 jp m inp trace :
  run_trace jp m inp = Ok trace ->
  forall n it, nth_error trace n = Some it ->
  length (it_lags it) = 3%nat /\ length (it_lags_next it) = 3%nat.
Proof.
  intros H. destruct (run_trace_pass _ _ _ _ H) as [ph [_ [_ Hp]]].
  destruct (pass_entry _ _ _ _ H) as [H0 HS].
  induction n as [| n IH]; intros it Hn.
  - destruct (H0 it Hn) as [Hl _]. pose proof (pass_lags_next (Hp _ _ Hn)) as Hx.
    simpl in Hx. rewrite Hx, Hl. now split.
  - assert (Hlt : (n < length trace)%nat).
    { assert (S n < length trace)%nat by (apply nth_error_Some; congruence). lia. }
    apply nth_error_Some in Hlt.
    destruct (nth_error trace n) as [p |] eqn:Ep; [| congruence].
    destruct (IH p eq_refl) as [_ Hpn].
    destruct (HS n p it Ep Hn) as [Hl _].
    pose proof (pass_lags_next (Hp _ _ Hn)) as Hx.
    pose proof (pass_lags (Hp _ _ Hn)) as Hy.
    rewrite <- Hy in Hx. assert (H3 : length (it_lags it) = 3%nat) by congruence.
    split; trivial. rewrite Hx. cbn [length]. rewrite length_firstn, H3. reflexivity.
Qed.

End RunFacts.

(** * Properties of the forecast run *)

Import Datetime Pandas Xgb App PyFacts FrameFacts LoopFacts DateFacts RunFacts.

Lemma pass_cell_count m hol prev_hol total w lags q ts it c :
  slot_pass m hol prev_hol total w lags q ts it ->
  cell c (it_dcount it) =
  if listed c (count_cols m)
  then Some (count_cells hol prev_hol total w lags ts c)
  else None.
Proof.
  intros P. rewrite (pass_dcount P).
  apply cell_cells, unique_NoDup, (pass_count_unique P).
Qed.

Lemma pass_cell_multi m hol prev_hol total w lags q ts it c :
  slot_pass m hol prev_hol total w lags q ts it ->
  cell c (it_dmulti it) =
  if listed c (multi_cols m)
  then Some (multi_cells hol prev_hol total w (it_reception it) q ts c)
  else None.
Proof.
  intros P. rewrite (pass_dmulti P).
  apply cell_cells, unique_NoDup, (pass_multi_unique P).
Qed.

Lemma pass_row_fields m hol prev_hol total w lags q ts it :
  slot_pass m hol prev_hol total w lags q ts it ->
  time_label (it_row it) = strftime_HM ts
  /\ predicted_arrivals (it_row it) = Py.clamp_round (it_count_raw it)
  /\ predicted_queue (it_row it) = Py.clamp_round (it_queue_raw it)
  /\ predicted_wait (it_row it) = Py.clamp_round (it_wait_raw it).
Proof.
  intros P. rewrite (pass_row P). simpl.
  rewrite (pass_reception P),
          (pass_queue_pred P),
          (pass_wait_pred P). auto.
Qed.

Lemma count_cells_newest_lag hol prev_hol total w a b c ts :
  count_cells hol prev_hol total w [a; b; c] ts (lag_col 0) = a.
Proof. reflexivity. Qed.

Lemma multi_cells_queue_at_start hol prev_hol total w r q ts :
  multi_cells hol prev_hol total w r q ts col_queue_at_start = q.
Proof. reflexivity. Qed.

(** C1. Each of the three numbers emitted for a slot is the booster's
    score on that slot's matrix, rounded to a nearest integer and then
    raised to 0 when negative; it is therefore a non-negative integer
    (a score of -2.4 gives 0, a score of 7.6 gives 8).  The rounded and
    clamped arrival count is what enters this slot's queue and wait
    matrix and the lag list, and the rounded and clamped queue is what is
    carried on; the next slot reads both from there into its matrices. *)
Theorem outputs_rounded_and_clamped jp m inp trace n it
    (Hrun : run_trace jp m inp = Ok trace)
    (Hn : nth_error trace n = Some it) :
  (count_model m (it_dcount it) = Ok (it_count_raw it)
   /\ queue_model m (it_dmulti it) = Ok (it_queue_raw it)
   /\ waittime_model m (it_dmulti it) = Ok (it_wait_raw it))
  /\ (predicted_arrivals (it_row it) = Z.max 0 (Py.round (it_count_raw it))
      /\ predicted_queue (it_row it) = Z.max 0 (Py.round (it_queue_raw it))
      /\ predicted_wait (it_row it) = Z.max 0 (Py.round (it_wait_raw it)))
  /\ (0 <= predicted_arrivals (it_row it)
      /\ 0 <= predicted_queue (it_row it)
      /\ 0 <= predicted_wait (it_row it))
  /\ (forall x : Q, (Qabs (inject_Z (Py.round x) - x) <= 1 # 2)%Q)
  /\ (Py.clamp_round (-24 # 10) = 0 /\ Py.clamp_round (76 # 10) = 8)
  /\ (cell col_reception (it_dmulti it) =
      if listed col_reception (multi_cols m)
      then Some (predicted_arrivals (it_row it)) else None)
  /\ (it_lags_next it = predicted_arrivals (it_row it) :: firstn 2 (it_lags it)
      /\ it_queue_next it = predicted_queue (it_row it))
  /\ (forall it', nth_error trace (S n) = Some it' ->
        it_lags it' = it_lags_next it
        /\ it_queue_at_start it' = it_queue_next it
        /\ cell (lag_col 0) (it_dcount it') =
           (if listed (lag_col 0) (count_cols m)
            then Some (predicted_arrivals (it_row it)) else None)
        /\ cell col_queue_at_start (it_dmulti it') =
           (if listed col_queue_at_start (multi_cols m)
            then Some (predicted_queue (it_row it)) else None)).
Proof.
  destruct (run_trace_pass _ _ _ _ Hrun) as [ph [_ [_ Hall]]].
  pose proof (Hall n it Hn) as Hp.
  destruct (pass_row_fields _ _ _ _ _ _ _ _ _ Hp) as [_ [Ha [Hq Hw]]].
  assert (Hrec : predicted_arrivals (it_row it) = it_reception it)
    by (rewrite Ha; symmetry; apply (pass_reception Hp)).
  assert (Hqp : predicted_queue (it_row it) = it_queue_pred it)
    by (rewrite Hq; symmetry; apply (pass_queue_pred Hp)).
  repeat split.
  - apply (pass_count_raw Hp).
  - apply (pass_queue_raw Hp).
  - apply (pass_wait_raw Hp).
  - exact Ha.
  - exact Hq.
  - exact Hw.
  - rewrite Ha. apply clamp_round_nonneg.
  - rewrite Hq. apply clamp_round_nonneg.
  - rewrite Hw. apply clamp_round_nonneg.
  - apply round_nearest.
  - rewrite (pass_cell_multi _ _ _ _ _ _ _ _ _ col_reception Hp), Hrec.
    reflexivity.
  - rewrite Hrec, (pass_lags_next Hp),
            (pass_lags Hp). reflexivity.
  - rewrite Hqp. apply (pass_queue_next Hp).
  - apply (proj2 (pass_entry _ _ _ _ Hrun) n it it' Hn H).
  - apply (proj2 (pass_entry _ _ _ _ Hrun) n it it' Hn H).
  - pose proof (Hall (S n) it' H) as Hp'.
    rewrite (pass_cell_count _ _ _ _ _ _ _ _ _ (lag_col 0) Hp').
    destruct (listed (lag_col 0) (count_cols m)); trivial. f_equal.
    rewrite <- (pass_lags Hp').
    destruct (proj2 (pass_entry _ _ _ _ Hrun) n it it' Hn H) as [-> _].
    destruct (lags_length_3 _ _ _ _ Hrun n it Hn) as [L _].
    rewrite (pass_lags_next Hp),
            <- (pass_lags Hp), Hrec.
    destruct (it_lags it) as [| a [| b [| c [| ? ?]]]]; try discriminate.
    apply count_cells_newest_lag.
  - pose proof (Hall (S n) it' H) as Hp'.
    rewrite (pass_cell_multi _ _ _ _ _ _ _ _ _ col_queue_at_start Hp').
    destruct (listed col_queue_at_start (multi_cols m)); trivial. f_equal.
    rewrite multi_cells_queue_at_start,
            <- (pass_queue_at_start Hp').
    destruct (proj2 (pass_entry _ _ _ _ Hrun) n it it' Hn H) as [_ ->].
    rewrite Hqp. apply (pass_queue_next Hp).
Qed.

Lemma outputs_rounded_and_clamped_witness :
  run_trace Sample.holidays Sample.models Sample.inputs = Ok Sample.trace
  /\ it_wait_raw (Sample.pass 0) = (-48 # 20)%Q
  /\ predicted_wait (it_row (Sample.pass 0))
     = Z.max 0 (Py.round (it_wait_raw (Sample.pass 0)))
  /\ 0 <= predicted_wait (it_row (Sample.pass 0))
  /\ it_lags_next (Sample.pass 0)
     = predicted_arrivals (it_row (Sample.pass 0))
       :: firstn 2 (it_lags (Sample.pass 0)).
Proof.
  assert (Hrun : run_trace Sample.holidays Sample.models Sample.inputs
                 = Ok Sample.trace) by (vm_compute; reflexivity).
  assert (Hn : nth_error Sample.trace 0 = Some (Sample.pass 0)) by reflexivity.
  destruct (outputs_rounded_and_clamped _ _ _ _ _ _ Hrun Hn)
    as [_ [[_ [_ Hw]] [[_ [_ Hw0]] [_ [_ [_ [[Hl _] _]]]]]]].
  repeat split; trivial.
Defined.

(** C2. The queue_at_start_of_slot cell of a slot's queue and wait
    matrix holds the value the loop carried into that slot (and the
    matrix has no such cell when the schema does not list the column);
    that value is 0 for the first slot and, for every later slot, the
    very number emitted as predicted queue for the slot before. *)
Theorem queue_at_start_is_previous_queue jp m inp trace n it
    (Hrun : run_trace jp m inp = Ok trace)
    (Hn : nth_error trace n = Some it) :
  (cell col_queue_at_start (it_dmulti it) =
     if listed col_queue_at_start (multi_cols m)
     then Some (it_queue_at_start it) else None)
  /\ (n = 0%nat -> it_queue_at_start it = 0)
  /\ (forall k p, n = S k -> nth_error trace k = Some p ->
        it_queue_at_start it = predicted_queue (it_row p)).
Proof.
  destruct (run_trace_pass _ _ _ _ Hrun) as [ph [_ [_ Hp]]].
  destruct (pass_entry _ _ _ _ Hrun) as [H0 HS].
  split; [| split].
  - rewrite (pass_cell_multi _ _ _ _ _ _ _ _ _ col_queue_at_start (Hp n it Hn)).
    rewrite (pass_queue_at_start (Hp n it Hn)). reflexivity.
  - intros ->. apply (H0 it Hn).
  - intros k p -> Hk.
    destruct (HS k p it Hk Hn) as [_ ->].
    rewrite (pass_queue_next (Hp k p Hk)).
    rewrite (pass_row (Hp k p Hk)). reflexivity.
Qed.

Lemma queue_at_start_is_previous_queue_witness :
  cell col_queue_at_start (it_dmulti (Sample.pass 3)) = Some 2
  /\ predicted_queue (it_row (Sample.pass 2)) = 2.
Proof.
  assert (Hrun : run_trace Sample.holidays Sample.models Sample.inputs
                 = Ok Sample.trace) by (vm_compute; reflexivity).
  assert (Hn : nth_error Sample.trace 3 = Some (Sample.pass 3)) by reflexivity.
  destruct (queue_at_start_is_previous_queue _ _ _ _ _ _ Hrun Hn)
    as [Hc [_ Hprev]].
  specialize (Hprev 2%nat (Sample.pass 2) eq_refl eq_refl).
  split.
  - rewrite Hc. reflexivity.
  - rewrite <- Hprev. reflexivity.
Defined.

(** C4. The lag list has exactly three entries whenever a slot is
    entered or left; it is [0, 0, 0] on entry to the first slot, and on
    leaving a slot it is that slot's predicted arrival count followed by
    the first two entries it had on entry, the third being dropped.  The
    next slot is entered with the list the slot before it left. *)
Theorem lags_hold_three_entries jp m inp trace n it
    (Hrun : run_trace jp m inp = Ok trace)
    (Hn : nth_error trace n = Some it) :
  (length (it_lags it) = 3%nat /\ length (it_lags_next it) = 3%nat)
  /\ (n = 0%nat -> it_lags it = [0; 0; 0])
  /\ (exists a b c,
        it_lags it = [a; b; c]
        /\ it_lags_next it = [predicted_arrivals (it_row it); a; b])
  /\ (forall it', nth_error trace (S n) = Some it' ->
        it_lags it' = it_lags_next it).
Proof.
  destruct (run_trace_pass _ _ _ _ Hrun) as [ph [_ [_ Hp]]].
  destruct (pass_entry _ _ _ _ Hrun) as [H0 HS].
  destruct (lags_length_3 _ _ _ _ Hrun n it Hn) as [L1 L2].
  split; [now split | split; [| split]].
  - intros ->. apply (H0 it Hn).
  - destruct (it_lags it) as [| a [| b [| c [| ? ?]]]] eqn:E; try discriminate.
    exists a, b, c. split; trivial.
    rewrite (pass_lags_next (Hp n it Hn)).
    rewrite <- (pass_lags (Hp n it Hn)), E.
    rewrite (pass_row (Hp n it Hn)). reflexivity.
  - intros it' Hs. apply (HS n it it' Hn Hs).
Qed.

Lemma lags_hold_three_entries_witness :
  it_lags (Sample.pass 0) = [0; 0; 0]
  /\ length (it_lags_next (Sample.pass 20)) = 3%nat.
Proof.
  assert (Hrun : run_trace Sample.holidays Sample.models Sample.inputs
                 = Ok Sample.trace) by (vm_compute; reflexivity).
  split.
  - apply (proj1 (proj2 (lags_hold_three_entries _ _ _ _ 0%nat (Sample.pass 0)
                            Hrun eq_refl))). reflexivity.
  - apply (proj2 (proj1 (lags_hold_three_entries _ _ _ _ 20%nat (Sample.pass 20)
                            Hrun eq_refl))).
Defined.

Lemma slot_loop_ts m hol prev_hol total w slots : forall lags q its,
  slot_loop m hol prev_hol total w slots lags q = Ok its ->
  map it_ts its = slots.
Proof.
  induction slots as [| ts rest IH]; intros lags q its H; simpl in H.
  - now injection H as <-.
  - apply bind_Ok in H. destruct H as [it [Hb H]].
    apply bind_Ok in H. destruct H as [tl [Htl H]].
    injection H as <-. simpl. f_equal.
    + apply (pass_ts (slot_body_pass _ _ _ _ _ _ _ _ _ Hb)).
    + eapply IH, Htl.
Qed.

Lemma run_trace_ts jp m inp trace :
  run_trace jp m inp = Ok trace ->
  map it_ts trace = time_slots (target_date inp).
Proof.
  intros H. apply run_trace_Ok in H. destruct H as [prev [_ [_ Hl]]].
  eapply slot_loop_ts, Hl.
Qed.

Lemma run_labels jp m inp rows :
  run jp m inp = Ok rows -> map time_label rows = half_hour_labels.
Proof.
  intros H. apply run_Ok in H. destruct H as [trace [Ht ->]].
  rewrite <- (time_slots_labels (target_date inp)), <- (run_trace_ts _ _ _ _ Ht).
  rewrite !map_map.
  destruct (run_trace_pass _ _ _ _ Ht) as [ph [_ [_ Hp]]].
  apply nth_error_ext. intros n. rewrite !nth_error_map.
  destruct (nth_error trace n) as [it |] eqn:E; simpl; trivial.
  f_equal. specialize (Hp n it E).
  rewrite (pass_row Hp), (pass_ts Hp).
  reflexivity.
Qed.

(** C3. Whatever the target date, a run that returns its table returns
    exactly 21 rows, labelled 08:00, 08:30, ... 18:00 in this order: half
    an hour apart, strictly increasing, no label twice; the slots behind
    them are the minutes 480, 510, ... 1080 of the target date. *)
Theorem report_has_21_half_hour_rows jp m inp :
  (forall rows, run jp m inp = Ok rows ->
     length rows = 21%nat
     /\ map time_label rows = half_hour_labels
     /\ NoDup (map time_label rows)
     /\ StronglySorted (fun a b => String.ltb a b = true) (map time_label rows))
  /\ (forall trace, run_trace jp m inp = Ok trace ->
        map it_ts trace
        = map (fun k => mkts (target_date inp) (480 + Z.of_nat k * 30)) (seq 0 21)
        /\ StronglySorted Z.lt (map (fun it => ts_minutes (it_ts it)) trace)).
Proof.
  split.
  - intros rows H. pose proof (run_labels _ _ _ _ H) as Hl.
    split; [| split; [exact Hl | rewrite Hl; split]].
    + rewrite <- (length_map time_label), Hl. reflexivity.
    + unfold half_hour_labels.
      repeat (constructor; [simpl; intuition discriminate |]). constructor.
    + unfold half_hour_labels.
      repeat (constructor; [| repeat constructor]). constructor.
  - intros trace H. pose proof (run_trace_ts _ _ _ _ H) as Hts.
    rewrite time_slots_eq in Hts. split; trivial.
    rewrite <- (map_map it_ts ts_minutes), Hts, map_map. cbn [ts_minutes].
    simpl. repeat (constructor; [| repeat constructor; lia]). constructor.
Qed.

Lemma report_has_21_half_hour_rows_witness :
  run Sample.holidays Sample.models Sample.inputs = Ok Sample.rows
  /\ length Sample.rows = 21%nat
  /\ map time_label Sample.rows = half_hour_labels
  /\ map it_ts Sample.trace
     = map (fun k => mkts (mkdate 2025 6 10) (480 + Z.of_nat k * 30)) (seq 0 21).
Proof.
  assert (Hrun : run Sample.holidays Sample.models Sample.inputs = Ok Sample.rows)
    by (vm_compute; reflexivity).
  assert (Htrace : run_trace Sample.holidays Sample.models Sample.inputs
                   = Ok Sample.trace) by (vm_compute; reflexivity).
  destruct (report_has_21_half_hour_rows Sample.holidays Sample.models
              Sample.inputs) as [Hrows Hslots].
  destruct (Hrows Sample.rows Hrun) as [Hlen [Hlab _]].
  destruct (Hslots Sample.trace Htrace) as [Hts _].
  repeat split; trivial.
Defined.

(** ** Cells of unassigned columns *)

Lemma lag_cells_other (c : string) (lags : list Z) : forall f i,
  ~ In c (map lag_col (seq i (length lags))) -> lag_cells f i lags c = f c.
Proof.
  induction lags as [| lag rest IH]; intros f i Hn; simpl; trivial.
  simpl in Hn. rewrite IH by tauto.
  apply upd_other. intros ->. tauto.
Qed.

Lemma count_cells_unassigned hol prev_hol total w lags ts c :
  ~ In c (count_assigned (length lags)) ->
  count_cells hol prev_hol total w lags ts c = 0.
Proof.
  unfold count_assigned. intros Hn. unfold count_cells.
  rewrite lag_cells_other by (intros H; apply Hn, in_or_app; now right).
  repeat (rewrite upd_other;
          [| intros ->; apply Hn, in_or_app; left; simpl; tauto]).
  reflexivity.
Qed.

Lemma multi_cells_unassigned hol prev_hol total w r q ts c :
  ~ In c multi_assigned ->
  multi_cells hol prev_hol total w r q ts c = 0.
Proof.
  unfold multi_assigned. intros Hn. unfold multi_cells.
  repeat (rewrite upd_other; [| intros ->; apply Hn; simpl; tauto]).
  reflexivity.
Qed.

Lemma in_flat_map_filter (c : string) (cols : list string) :
  In c (flat_map (fun c0 => filter (fun k => String.eqb k c0) cols) cols)
  <-> In c cols.
Proof.
  rewrite in_flat_map. split.
  - intros [x [_ Hx]]. apply filter_In in Hx. tauto.
  - intros Hin. exists c. split; trivial. now apply filter_eqb_In.
Qed.

(** Selection by the schema never raises, keeps the schema's names and no
    other, and every column keeps the cell the frame gave it. *)
Lemma select_laid_out cols f df :
  laid_out cols f df ->
  exists sel,
    getitem_list df cols = Ok sel
    /\ (forall c, In c (columns sel) <-> In c cols)
    /\ (forall c v, In (c, v) sel -> v = f c).
Proof.
  intros Hl. eexists. split; [| split].
  - apply (getitem_list_laid_out _ _ _ Hl cols), incl_refl.
  - intros c. rewrite columns_cells. apply in_flat_map_filter.
  - intros c v Hin. apply in_map_iff in Hin.
    destruct Hin as [k [[= -> <-] _]]. reflexivity.
Qed.

(** C5 (as the code has it). Building a frame and selecting it by its
    schema never raises, whichever assigned field the schema leaves out,
    hour and minute like any other: the selected frame carries the
    schema's names and no other, so an assigned field the schema does not
    list is left out, and a listed column that the builder does not
    assign holds 0.  The selected frame is what the matrix constructor is
    given, and every matrix it builds is that frame. *)
Theorem absent_fields_are_omitted m hol prev_hol total w lags reception q ts :
  (exists sel,
     getitem_list (df_count m hol prev_hol total w lags ts) (count_cols m) = Ok sel
     /\ (forall c, In c (columns sel) <-> In c (count_cols m))
     /\ (forall c v, In (c, v) sel ->
           ~ In c (count_assigned (length lags)) -> v = 0)
     /\ dcount_of m hol prev_hol total w lags ts = make_DMatrix sel
     /\ (forall d, dcount_of m hol prev_hol total w lags ts = Ok d -> d = sel))
  /\ (exists sel,
        getitem_list (df_multi m hol prev_hol total w reception q ts)
                     (multi_cols m) = Ok sel
        /\ (forall c, In c (columns sel) <-> In c (multi_cols m))
        /\ (forall c v, In (c, v) sel -> ~ In c multi_assigned -> v = 0)
        /\ dmulti_of m hol prev_hol total w reception q ts = make_DMatrix sel
        /\ (forall d, dmulti_of m hol prev_hol total w reception q ts = Ok d ->
              d = sel)).
Proof.
  split.
  - destruct (select_laid_out _ _ _ (laid_out_df_count m hol prev_hol total w lags ts))
      as [sel [Hs [Hc Hv]]].
    assert (Hd : dcount_of m hol prev_hol total w lags ts = make_DMatrix sel)
      by (unfold dcount_of; now rewrite Hs).
    exists sel. split; [exact Hs | split; [exact Hc | split; [| split]]].
    + intros c v Hin Hn. rewrite (Hv c v Hin).
      now apply count_cells_unassigned.
    + exact Hd.
    + intros d H. rewrite Hd in H. now apply make_DMatrix_Ok in H.
  - destruct (select_laid_out _ _ _
                (laid_out_df_multi m hol prev_hol total w reception q ts))
      as [sel [Hs [Hc Hv]]].
    assert (Hd : dmulti_of m hol prev_hol total w reception q ts = make_DMatrix sel)
      by (unfold dmulti_of; now rewrite Hs).
    exists sel. split; [exact Hs | split; [exact Hc | split; [| split]]].
    + intros c v Hin Hn. rewrite (Hv c v Hin).
      now apply multi_cells_unassigned.
    + exact Hd.
    + intros d H. rewrite Hd in H. now apply make_DMatrix_Ok in H.
Qed.

(** C5 as the specification words it does not hold.  The sample schemas of
    [models_no_clock] list neither hour nor minute; both matrices are
    built all the same, without these fields, and the run returns its
    table.  So it is not the case that a schema without hour or minute
    makes the build fail. *)
Lemma absent_hour_and_minute_are_tolerated :
  (listed col_hour (count_cols Sample.models_no_clock) = false
   /\ listed col_minute (count_cols Sample.models_no_clock) = false
   /\ listed col_hour (multi_cols Sample.models_no_clock) = false
   /\ listed col_minute (multi_cols Sample.models_no_clock) = false)
  /\ dcount_of Sample.models_no_clock true false 1200 "雨" [3; 2; 1]
                (mkts (mkdate 2025 6 10) 510)
      = Ok [("is_holiday"%string, 1); ("lag_30min"%string, 3)]
  /\ dmulti_of Sample.models_no_clock true false 1200 "雨" 8 5
                (mkts (mkdate 2025 6 10) 510)
      = Ok [("reception_count"%string, 8); ("queue_at_start_of_slot"%string, 5)]
  /\ is_ok (run Sample.holidays Sample.models_no_clock Sample.inputs) = true
  /\ ~ (forall m hol prev_hol total w lags ts,
          listed col_hour (count_cols m) = false
          \/ listed col_minute (count_cols m) = false ->
          is_ok (dcount_of m hol prev_hol total w lags ts) = false).
Proof.
  split; [repeat split; reflexivity |].
  split; [vm_compute; reflexivity |].
  split; [vm_compute; reflexivity |].
  split; [vm_compute; reflexivity |].
  intros H.
  specialize (H Sample.models_no_clock true false 1200 "雨"%string [3; 2; 1]
                (mkts (mkdate 2025 6 10) 510) (or_introl eq_refl)).
  vm_compute in H. discriminate.
Qed.

(** C6. A date is classified non-working exactly when the holiday table
    has it, or its weekday is Saturday or Sunday, or it is 29 December or
    later, or 3 January or earlier.  So 30 December and 2 January are
    non-working in every year and on every weekday, and a Wednesday that
    the table does not have and that lies outside both windows is
    working.  The run applies this rule to the target date and to the day
    before it. *)
Theorem non_working_day_rule jp d :
  (non_working_day jp d = true <->
     jp d = true
     \/ weekday d = saturday \/ weekday d = sunday
     \/ (month d = 12 /\ 29 <= day d)
     \/ (month d = 1 /\ day d <= 3))
  /\ (forall y, non_working_day jp (mkdate y 12 30) = true)
  /\ (forall y, non_working_day jp (mkdate y 1 2) = true)
  /\ (weekday d = wednesday -> jp d = false ->
      ~ (month d = 12 /\ 29 <= day d) -> ~ (month d = 1 /\ day d <= 3) ->
      non_working_day jp d = false)
  /\ (forall inp, is_holiday jp inp = non_working_day jp (target_date inp))
  /\ (forall inp prev, prev_date inp = Ok prev ->
        is_prev_holiday jp inp = Ok (non_working_day jp prev)).
Proof.
  assert (Hiff : non_working_day jp d = true <->
     jp d = true
     \/ weekday d = saturday \/ weekday d = sunday
     \/ (month d = 12 /\ 29 <= day d)
     \/ (month d = 1 /\ day d <= 3)).
  { unfold non_working_day, saturday, sunday.
    pose proof (weekday_range d) as Hw.
    rewrite !orb_true_iff, !andb_true_iff, !Z.eqb_eq, !Z.leb_le.
    intuition lia. }
  split; [exact Hiff | repeat split].
  - intros y. unfold non_working_day. cbn [month day].
    rewrite !orb_true_iff. left. right. reflexivity.
  - intros y. unfold non_working_day. cbn [month day].
    rewrite !orb_true_iff. right. reflexivity.
  - intros Hw Hjp H12 H1.
    apply not_true_is_false. intros E.
    apply Hiff in E. unfold wednesday, saturday, sunday in *.
    intuition congruence.
  - intros inp prev Hp. unfold is_prev_holiday. now rewrite Hp.
Qed.

Lemma non_working_day_rule_witness :
  non_working_day Sample.holidays (mkdate 2025 6 11) = false
  /\ weekday (mkdate 2025 6 11) = wednesday
  /\ weekday (mkdate 2025 12 30) = 1
  /\ non_working_day Sample.holidays (mkdate 2025 12 30) = true
  /\ is_prev_holiday Sample.holidays (mkInputs (mkdate 2026 1 4) 1200 "晴")
     = Ok true.
Proof.
  pose proof (non_working_day_rule Sample.holidays (mkdate 2025 6 11))
    as [_ [H30 [_ [Hwed [_ Hprev]]]]].
  split; [| split; [| split; [| split]]].
  - apply Hwed; [reflexivity | reflexivity | simpl; lia | simpl; lia].
  - reflexivity.
  - reflexivity.
  - apply H30.
  - apply (Hprev _ (mkdate 2026 1 3)). reflexivity.
Defined.

(** ** Substring search *)

Lemma prefix_append (n h : string) :
  String.prefix n h = true <-> exists post, h = (n ++ post)%string.
Proof.
  revert h. induction n as [| a n IH]; intros h.
  - destruct h; simpl; split; trivial; intros _; eexists; reflexivity.
  - destruct h as [| b h]; simpl.
    + split; [discriminate | intros [post Hp]; discriminate].
    + destruct (Ascii.ascii_dec a b) as [-> | Hne].
      * rewrite IH. split; intros [post Hp]; exists post; congruence.
      * split; [discriminate | intros [post Hp]; congruence].
Qed.

(** [needle in hay] holds exactly when [hay] is [pre ++ needle ++ post]. *)
Lemma str_contains_spec (n h : string) :
  Py.str_contains n h = true <->
  exists pre post, h = (pre ++ n ++ post)%string.
Proof.
  induction h as [| b h IH].
  - cbn [Py.str_contains]. rewrite orb_false_r, prefix_append. split.
    + intros [post Hp]. now exists EmptyString, post.
    + intros [pre [post Hp]]. destruct pre; [now exists post | discriminate].
  - cbn [Py.str_contains]. rewrite orb_true_iff, prefix_append, IH. split.
    + intros [[post Hp] | [pre [post Hp]]].
      * now exists EmptyString, post.
      * exists (String b pre), post. simpl. congruence.
    + intros [pre [post Hp]]. destruct pre as [| a pre].
      * left. now exists post.
      * right. exists pre, post. simpl in Hp. congruence.
Qed.

Lemma lag_col_head (i : nat) : exists s, lag_col i = String "l" s.
Proof. unfold lag_col. simpl. eexists. reflexivity. Qed.

Lemma not_lag_col (c : string) (i : nat) (lags : list Z) :
  (forall s, c <> String "l" s) -> ~ In c (map lag_col (seq i (length lags))).
Proof.
  intros Hc Hin. apply in_map_iff in Hin. destruct Hin as [k [E _]].
  destruct (lag_col_head k) as [s Hs]. rewrite Hs in E. now apply (Hc s).
Qed.

Lemma count_cells_rain hol prev_hol total w lags ts :
  count_cells hol prev_hol total w lags ts col_rain = rain_flag w.
Proof.
  unfold count_cells. rewrite lag_cells_other; [reflexivity |].
  apply not_lag_col. intros s. discriminate.
Qed.

Lemma count_cells_snow hol prev_hol total w lags ts :
  count_cells hol prev_hol total w lags ts col_snow = snow_flag w.
Proof.
  unfold count_cells. rewrite lag_cells_other; [reflexivity |].
  apply not_lag_col. intros s. discriminate.
Qed.

(** C7. In both matrices of every slot the rain cell is the rain flag of
    the weather and the snow cell is its snow flag (neither cell exists
    when the schema does not list it).  A flag is 1 when the weather
    string contains the character for rain, respectively snow, and 0
    otherwise.  Over the six weather options the rain flag is 1 for rain
    only and the snow flag is 1 for snow only: the pair is (1, 0) for
    rain, (0, 1) for snow and (0, 0) for the other four. *)
Theorem weather_flags jp m inp trace n it
    (Hrun : run_trace jp m inp = Ok trace)
    (Hn : nth_error trace n = Some it) :
  (cell col_rain (it_dcount it) =
     if listed col_rain (count_cols m)
     then Some (rain_flag (weather inp)) else None)
  /\ (cell col_snow (it_dcount it) =
        if listed col_snow (count_cols m)
        then Some (snow_flag (weather inp)) else None)
  /\ (cell col_rain (it_dmulti it) =
        if listed col_rain (multi_cols m)
        then Some (rain_flag (weather inp)) else None)
  /\ (cell col_snow (it_dmulti it) =
        if listed col_snow (multi_cols m)
        then Some (snow_flag (weather inp)) else None)
  /\ (forall w,
        (rain_flag w = 1 <-> exists pre post, w = (pre ++ "雨" ++ post)%string)
        /\ (rain_flag w = 0 \/ rain_flag w = 1)
        /\ (snow_flag w = 1 <-> exists pre post, w = (pre ++ "雪" ++ post)%string)
        /\ (snow_flag w = 0 \/ snow_flag w = 1))
  /\ (forall w, In w weather_options ->
        (rain_flag w = 1 <-> w = "雨"%string)
        /\ (snow_flag w = 1 <-> w = "雪"%string)
        /\ (w = "雨"%string -> rain_flag w = 1 /\ snow_flag w = 0)
        /\ (w = "雪"%string -> rain_flag w = 0 /\ snow_flag w = 1)
        /\ (w <> "雨"%string -> w <> "雪"%string ->
            rain_flag w = 0 /\ snow_flag w = 0)).
Proof.
  destruct (run_trace_pass _ _ _ _ Hrun) as [ph [_ [_ Hp]]].
  specialize (Hp n it Hn).
  split; [| split; [| split; [| split; [| split]]]].
  - rewrite (pass_cell_count _ _ _ _ _ _ _ _ _ col_rain Hp), count_cells_rain.
    reflexivity.
  - rewrite (pass_cell_count _ _ _ _ _ _ _ _ _ col_snow Hp), count_cells_snow.
    reflexivity.
  - apply (pass_cell_multi _ _ _ _ _ _ _ _ _ col_rain Hp).
  - apply (pass_cell_multi _ _ _ _ _ _ _ _ _ col_snow Hp).
  - intros w. unfold rain_flag, snow_flag.
    rewrite <- !str_contains_spec.
    destruct (Py.str_contains "雨" w), (Py.str_contains "雪" w); simpl;
      intuition (try discriminate; try lia).
  - intros w Hin. unfold weather_options in Hin. simpl in Hin.
    destruct Hin as [<- | [<- | [<- | [<- | [<- | [<- | []]]]]]];
      vm_compute; intuition (try discriminate; try congruence).
Qed.

Lemma weather_flags_witness :
  cell col_rain (it_dcount (Sample.pass 5)) = Some 1
  /\ cell col_snow (it_dmulti (Sample.pass 5)) = Some 0.
Proof.
  assert (Hrun : run_trace Sample.holidays Sample.models Sample.inputs
                 = Ok Sample.trace) by (vm_compute; reflexivity).
  assert (Hn : nth_error Sample.trace 5 = Some (Sample.pass 5)) by reflexivity.
  destruct (weather_flags _ _ _ _ _ _ Hrun Hn) as [Hr [_ [_ [Hs _]]]].
  split.
  - rewrite Hr. reflexivity.
  - rewrite Hs. reflexivity.
Defined.

Lemma cells_nth (f : string -> Z) (cols : list string) (i : nat) (name : string) :
  nth_error cols i = Some name ->
  nth_error (map (fun k => (k, f k)) cols) i = Some (name, f name).
Proof. intros H. now rewrite nth_error_map, H. Qed.

(** C8. A matrix handed to a booster carries the names of its schema, in
    the schema's order and nothing else: the field at every position is
    the one the schema lists at that position.  This holds for the
    matrices of every slot of a run and for every matrix the two builders
    return. *)
Theorem matrices_follow_schema_order jp m inp trace n it
    (Hrun : run_trace jp m inp = Ok trace)
    (Hn : nth_error trace n = Some it) :
  columns (it_dcount it) = count_cols m
  /\ columns (it_dmulti it) = multi_cols m
  /\ (forall i name, nth_error (count_cols m) i = Some name ->
        exists v, nth_error (it_dcount it) i = Some (name, v))
  /\ (forall i name, nth_error (multi_cols m) i = Some name ->
        exists v, nth_error (it_dmulti it) i = Some (name, v))
  /\ (forall hol prev_hol total w lags ts d,
        dcount_of m hol prev_hol total w lags ts = Ok d ->
        columns d = count_cols m)
  /\ (forall hol prev_hol total w reception q ts d,
        dmulti_of m hol prev_hol total w reception q ts = Ok d ->
        columns d = multi_cols m).
Proof.
  destruct (run_trace_pass _ _ _ _ Hrun) as [ph [_ [_ Hp]]].
  specialize (Hp n it Hn).
  pose proof (pass_dcount Hp) as Hc.
  pose proof (pass_dmulti Hp) as Hm.
  split; [| split; [| split; [| split; [| split]]]].
  - rewrite Hc. apply columns_cells.
  - rewrite Hm. apply columns_cells.
  - intros i name Hi. rewrite Hc. eexists. apply cells_nth, Hi.
  - intros i name Hi. rewrite Hm. eexists. apply cells_nth, Hi.
  - intros hol prev_hol total w lags ts d Hd.
    apply dcount_of_Ok in Hd. destruct Hd as [_ ->]. apply columns_cells.
  - intros hol prev_hol total w r q ts d Hd.
    apply dmulti_of_Ok in Hd. destruct Hd as [_ ->]. apply columns_cells.
Qed.

Lemma matrices_follow_schema_order_witness :
  columns (it_dcount (Sample.pass 7)) = count_cols Sample.models
  /\ columns (it_dmulti (Sample.pass 7)) = multi_cols Sample.models.
Proof.
  assert (Hrun : run_trace Sample.holidays Sample.models Sample.inputs
                 = Ok Sample.trace) by (vm_compute; reflexivity).
  assert (Hn : nth_error Sample.trace 7 = Some (Sample.pass 7)) by reflexivity.
  destruct (matrices_follow_schema_order _ _ _ _ _ _ Hrun Hn) as [Hc [Hm _]].
  now split.
Defined.

(** Passes of two loops that differ in the wait-time booster only. *)
Lemma slot_loop_forget m b hol prev_hol total w slots : forall lags q t1 t2,
  slot_loop m hol prev_hol total w slots lags q = Ok t1 ->
  slot_loop (with_waittime m b) hol prev_hol total w slots lags q = Ok t2 ->
  map forget_wait t1 = map forget_wait t2.
Proof.
  induction slots as [| ts rest IH]; intros lags q t1 t2 H1 H2; simpl in H1, H2.
  - injection H1 as <-. injection H2 as <-. reflexivity.
  - apply bind_Ok in H1. destruct H1 as [a [Ha H1]].
    apply bind_Ok in H1. destruct H1 as [ta [Hta H1]]. injection H1 as <-.
    apply bind_Ok in H2. destruct H2 as [c [Hc H2]].
    apply bind_Ok in H2. destruct H2 as [tc [Htc H2]]. injection H2 as <-.
    assert (E : forget_wait a = forget_wait c
                /\ it_lags_next a = it_lags_next c
                /\ it_queue_next a = it_queue_next c).
    { unfold slot_body, dcount_of, dmulti_of, df_count, df_multi in Ha, Hc.
      cbn [with_waittime count_cols multi_cols count_model queue_model
           waittime_model] in Hc.
      destruct (bind (getitem_list _ (count_cols m)) make_DMatrix) as [dc |];
        [| discriminate].
      cbn [bind] in Ha, Hc.
      destruct (count_model m dc) as [craw |]; [| discriminate].
      cbn [bind] in Ha, Hc.
      destruct (bind (getitem_list _ (multi_cols m)) make_DMatrix) as [dm |];
        [| discriminate].
      cbn [bind] in Ha, Hc.
      destruct (queue_model m dm) as [qraw |]; [| discriminate].
      cbn [bind] in Ha, Hc.
      destruct (waittime_model m dm) as [w1 |]; [| discriminate].
      destruct (b dm) as [w2 |]; [| discriminate].
      cbn [bind] in Ha, Hc.
      injection Ha as <-. injection Hc as <-. repeat split. }
    destruct E as [Ef [El Eq]]. simpl. rewrite Ef. f_equal.
    rewrite El, Eq in Hta. exact (IH _ _ _ _ Hta Htc).
Qed.

(** C10. Two runs that differ in the wait-time booster only, and both
    return, agree slot by slot on everything but the wait-time score and
    prediction: the predicted arrivals, the predicted queue, both
    matrices, the lag list and the carried queue.  The wait-time
    prediction appears in the row of its slot and nowhere else. *)
Theorem wait_prediction_feeds_nothing jp m b inp t1 t2
    (H1 : run_trace jp m inp = Ok t1)
    (H2 : run_trace jp (with_waittime m b) inp = Ok t2) :
  map forget_wait t1 = map forget_wait t2
  /\ map predicted_arrivals (map it_row t1) = map predicted_arrivals (map it_row t2)
  /\ map predicted_queue (map it_row t1) = map predicted_queue (map it_row t2)
  /\ map it_dcount t1 = map it_dcount t2
  /\ map it_dmulti t1 = map it_dmulti t2
  /\ map it_lags_next t1 = map it_lags_next t2
  /\ map it_queue_next t1 = map it_queue_next t2.
Proof.
  assert (E : map forget_wait t1 = map forget_wait t2).
  { apply run_trace_Ok in H1. destruct H1 as [p1 [Hp1 [_ Hl1]]].
    apply run_trace_Ok in H2. destruct H2 as [p2 [Hp2 [_ Hl2]]].
    assert (p1 = p2) by congruence. subst p2.
    exact (slot_loop_forget _ _ _ _ _ _ _ _ _ _ _ Hl1 Hl2). }
  split; trivial.
  repeat split.
  - rewrite !map_map.
    rewrite (map_ext _ (fun it => predicted_arrivals (it_row (forget_wait it))))
      by reflexivity.
    rewrite <- (map_map forget_wait (fun it => predicted_arrivals (it_row it))), E.
    now rewrite map_map.
  - rewrite !map_map.
    rewrite (map_ext _ (fun it => predicted_queue (it_row (forget_wait it))))
      by reflexivity.
    rewrite <- (map_map forget_wait (fun it => predicted_queue (it_row it))), E.
    now rewrite map_map.
  - rewrite (map_ext it_dcount (fun it => it_dcount (forget_wait it))) by reflexivity.
    rewrite <- (map_map forget_wait it_dcount), E. now rewrite map_map.
  - rewrite (map_ext it_dmulti (fun it => it_dmulti (forget_wait it))) by reflexivity.
    rewrite <- (map_map forget_wait it_dmulti), E. now rewrite map_map.
  - rewrite (map_ext it_lags_next (fun it => it_lags_next (forget_wait it)))
      by reflexivity.
    rewrite <- (map_map forget_wait it_lags_next), E. now rewrite map_map.
  - rewrite (map_ext it_queue_next (fun it => it_queue_next (forget_wait it)))
      by reflexivity.
    rewrite <- (map_map forget_wait it_queue_next), E. now rewrite map_map.
Qed.

Lemma wait_prediction_feeds_nothing_witness :
  map predicted_wait (map it_row Sample.trace)
  <> map predicted_wait (map it_row Sample.trace_flat)
  /\ map predicted_arrivals (map it_row Sample.trace)
     = map predicted_arrivals (map it_row Sample.trace_flat)
  /\ map predicted_queue (map it_row Sample.trace)
     = map predicted_queue (map it_row Sample.trace_flat).
Proof.
  assert (H1 : run_trace Sample.holidays Sample.models Sample.inputs
               = Ok Sample.trace) by (vm_compute; reflexivity).
  assert (H2 : run_trace Sample.holidays
                 (with_waittime Sample.models Sample.wait_flat) Sample.inputs
               = Ok Sample.trace_flat) by (vm_compute; reflexivity).
  destruct (wait_prediction_feeds_nothing _ _ _ _ _ _ H1 H2) as [_ [Ha [Hq _]]].
  split; [| now split].
  vm_compute. discriminate.
Defined.

(** * Further properties of the run *)

(** * The proleptic Gregorian calendar of datetime *)

Module CalendarFacts.

Import Datetime DateFacts.

Lemma dby_decomp a b c e :
  0 <= b <= 3 -> 0 <= c <= 24 -> 0 <= e <= 3 ->
  _days_before_year (400 * a + 100 * b + 4 * c + e + 1)
  = 146097 * a + 36524 * b + 1461 * c + 365 * e.
Proof.
  intros Hb Hc He. unfold _days_before_year. cbv zeta.
  Z.div_mod_to_equations. lia.
Qed.

Lemma is_leap_decomp a b c e :
  0 <= b <= 3 -> 0 <= c <= 24 -> 0 <= e <= 3 ->
  _is_leap (400 * a + 100 * b + 4 * c + e + 1)
  = (e =? 3) && (negb (c =? 24) || (b =? 3)).
Proof.
  intros Hb Hc He. unfold _is_leap.
  destruct (Z.eqb_spec e 3), (Z.eqb_spec c 24), (Z.eqb_spec b 3);
  destruct (Z.eqb_spec ((400 * a + 100 * b + 4 * c + e + 1) mod 4) 0),
           (Z.eqb_spec ((400 * a + 100 * b + 4 * c + e + 1) mod 100) 0),
           (Z.eqb_spec ((400 * a + 100 * b + 4 * c + e + 1) mod 400) 0);
  simpl; trivial; exfalso; Z.div_mod_to_equations; lia.
Qed.

Ltac closed_month_arith :=
  repeat match goal with
  | |- context [Z.pos ?p - 1] =>
      let v := eval vm_compute in (Z.pos p - 1) in
      change (Z.pos p - 1) with v
  | |- context [2 <? Z.pos ?p] =>
      let v := eval vm_compute in (2 <? Z.pos p) in
      change (2 <? Z.pos p) with v
  | |- context [2 <? 0] => change (2 <? 0) with false
  | |- context [Z.pos ?p =? 2] =>
      let v := eval vm_compute in (Z.pos p =? 2) in
      change (Z.pos p =? 2) with v
  | |- context [0 =? 2] => change (0 =? 2) with false
  end.

Lemma ord2ymd_correct n :
  toordinal (fromordinal n) = n /\ wf_date (fromordinal n).
Proof.
  unfold fromordinal, _ord2ymd, _DI400Y, _DI100Y, _DI4Y. cbv zeta.
  pose proof (Z.div_mod (n - 1) 146097 ltac:(lia)) as E400.
  pose proof (Z.mod_pos_bound (n - 1) 146097 ltac:(lia)) as B400.
  set (a := (n - 1) / 146097) in *. set (r400 := (n - 1) mod 146097) in *.
  pose proof (Z.div_mod r400 36524 ltac:(lia)) as E100.
  pose proof (Z.mod_pos_bound r400 36524 ltac:(lia)) as B100.
  set (b := r400 / 36524) in *. set (r100 := r400 mod 36524) in *.
  pose proof (Z.div_mod r100 1461 ltac:(lia)) as E4.
  pose proof (Z.mod_pos_bound r100 1461 ltac:(lia)) as B4.
  set (c := r100 / 1461) in *. set (r4 := r100 mod 1461) in *.
  pose proof (Z.div_mod r4 365 ltac:(lia)) as E1.
  pose proof (Z.mod_pos_bound r4 365 ltac:(lia)) as B1.
  set (e := r4 / 365) in *. set (r1 := r4 mod 365) in *.
  assert (Hb : 0 <= b <= 4) by lia.
  assert (Hc : 0 <= c <= 24) by lia.
  assert (He : 0 <= e <= 4) by lia.
  clearbody a r400 b r100 c r4 e r1.
  destruct (Z.eqb_spec e 4) as [He4 | He4];
    [| destruct (Z.eqb_spec b 4) as [Hb4 | Hb4]]; cbn [orb].
  - (* the last day of a leap year closing a four-year cycle *)
    assert (Hc' : 0 <= c <= 23) by lia.
    assert (Hb' : 0 <= b <= 3) by lia.
    replace (a * 400 + 1 + b * 100 + c * 4 + e - 1)
      with (400 * a + 100 * b + 4 * c + 3 + 1) by lia.
    unfold toordinal, _ymd2ord, _days_before_month, wf_date, _days_in_month.
    cbn [year month day].
    rewrite dby_decomp, is_leap_decomp by lia.
    replace (c =? 24) with false by (symmetry; apply Z.eqb_neq; lia).
    change ((3 =? 3) && (negb false || (b =? 3))) with true.
    change (12 =? 2) with false. change (2 <? 12) with true.
    cbn [_DAYS_BEFORE_MONTH _DAYS_IN_MONTH Py.int_of_bool andb]. lia.
  - (* the last day of a 400-year cycle *)
    replace (a * 400 + 1 + b * 100 + c * 4 + e - 1)
      with (400 * a + 100 * 3 + 4 * 24 + 3 + 1) by lia.
    unfold toordinal, _ymd2ord, _days_before_month, wf_date, _days_in_month.
    cbn [year month day].
    rewrite dby_decomp, is_leap_decomp by lia.
    change ((3 =? 3) && (negb (24 =? 24) || (3 =? 3))) with true.
    change (12 =? 2) with false. change (2 <? 12) with true.
    cbn [_DAYS_BEFORE_MONTH _DAYS_IN_MONTH Py.int_of_bool andb]. lia.
  - assert (Hb' : 0 <= b <= 3) by lia.
    assert (He' : 0 <= e <= 3) by lia.
    replace (a * 400 + 1 + b * 100 + c * 4 + e)
      with (400 * a + 100 * b + 4 * c + e + 1) by lia.
    rewrite Z.shiftr_div_pow2 by lia. change (2 ^ 5) with 32.
    pose proof (Z.div_mod (r1 + 50) 32 ltac:(lia)) as Em.
    pose proof (Z.mod_pos_bound (r1 + 50) 32 ltac:(lia)) as Bm.
    set (m0 := (r1 + 50) / 32) in *. set (rm := (r1 + 50) mod 32) in *.
    clearbody m0 rm.
    pose proof (is_leap_decomp a b c e Hb' Hc He') as Hleap.
    pose proof (dby_decomp a b c e Hb' Hc He') as Hdby.
    set (leap := (e =? 3) && (negb (c =? 24) || (b =? 3))) in *.
    assert (Hm0 : m0 = 1 \/ m0 = 2 \/ m0 = 3 \/ m0 = 4 \/ m0 = 5 \/ m0 = 6
                  \/ m0 = 7 \/ m0 = 8 \/ m0 = 9 \/ m0 = 10 \/ m0 = 11 \/ m0 = 12)
      by lia.
    unfold toordinal, _ymd2ord, _days_before_month, wf_date, _days_in_month.
    destruct leap;
    destruct Hm0 as [-> | [-> | [-> | [-> | [-> | [-> | [-> | [-> | [-> | [-> | [-> | ->]]]]]]]]]]];
      closed_month_arith;
      cbv [_DAYS_BEFORE_MONTH _DAYS_IN_MONTH Py.int_of_bool andb];
      match goal with
      | |- context [r1 <? ?p] => destruct (Z.ltb_spec r1 p)
      end;
      cbv [year month day]; rewrite ?Hleap, ?Hdby;
      closed_month_arith;
      cbv [_DAYS_BEFORE_MONTH _DAYS_IN_MONTH Py.int_of_bool andb];
      lia.
Qed.

Lemma dby_step y :
  _days_before_year (y + 1)
  = _days_before_year y + 365 + Py.int_of_bool (_is_leap y).
Proof.
  unfold _days_before_year, _is_leap. cbv zeta.
  replace (y + 1 - 1) with y by lia.
  destruct (Z.eqb_spec (y mod 4) 0), (Z.eqb_spec (y mod 100) 0),
           (Z.eqb_spec (y mod 400) 0);
    cbn [andb orb negb Py.int_of_bool]; Z.div_mod_to_equations; lia.
Qed.

Lemma dby_mono y y' : y <= y' -> _days_before_year y <= _days_before_year y'.
Proof.
  intros H. unfold _days_before_year. cbv zeta. Z.div_mod_to_equations. lia.
Qed.

Ltac each_month H :=
  destruct H as [-> | [-> | [-> | [-> | [-> | [-> | [-> | [-> | [-> | [-> | [-> | ->]]]]]]]]]]].

Lemma day_of_year_bounds y m dd :
  1 <= m <= 12 -> 1 <= dd <= _days_in_month y m ->
  1 <= _days_before_month y m + dd <= 365 + Py.int_of_bool (_is_leap y).
Proof.
  intros Hm. unfold _days_before_month, _days_in_month.
  pose proof (month_cases m Hm) as C.
  destruct (_is_leap y); each_month C; closed_month_arith;
    cbv [_DAYS_BEFORE_MONTH _DAYS_IN_MONTH Py.int_of_bool andb]; lia.
Qed.

Lemma day_of_year_inj y m dd m' dd' :
  1 <= m <= 12 -> 1 <= dd <= _days_in_month y m ->
  1 <= m' <= 12 -> 1 <= dd' <= _days_in_month y m' ->
  _days_before_month y m + dd = _days_before_month y m' + dd' ->
  m = m' /\ dd = dd'.
Proof.
  intros Hm Hd Hm' Hd'. revert Hd Hd'. unfold _days_before_month, _days_in_month.
  pose proof (month_cases m Hm) as C. pose proof (month_cases m' Hm') as C'.
  destruct (_is_leap y); each_month C; each_month C'; closed_month_arith;
    cbv [_DAYS_BEFORE_MONTH _DAYS_IN_MONTH Py.int_of_bool andb]; lia.
Qed.

Lemma toordinal_window d :
  wf_date d ->
  _days_before_year (year d) < toordinal d <= _days_before_year (year d + 1).
Proof.
  intros [Hm Hd]. unfold toordinal, _ymd2ord. rewrite dby_step.
  pose proof (day_of_year_bounds _ _ _ Hm Hd). lia.
Qed.

Lemma toordinal_inj d d' :
  wf_date d -> wf_date d' -> toordinal d = toordinal d' -> d = d'.
Proof.
  intros W W' E.
  pose proof (toordinal_window d W) as B.
  pose proof (toordinal_window d' W') as B'.
  assert (Hy : year d = year d').
  { destruct (Z.lt_trichotomy (year d) (year d')) as [L | [Eq | L]]; trivial.
    - pose proof (dby_mono (year d + 1) (year d') ltac:(lia)). lia.
    - pose proof (dby_mono (year d' + 1) (year d) ltac:(lia)). lia. }
  destruct d as [y m dd], d' as [y' m' dd']. cbn [year month day] in *. subst y'.
  destruct W as [Hm Hd], W' as [Hm' Hd']. cbn [year month day] in *.
  unfold toordinal, _ymd2ord in E. cbn [year month day] in E.
  destruct (day_of_year_inj y m dd m' dd' Hm Hd Hm' Hd' ltac:(lia)) as [-> ->].
  reflexivity.
Qed.

Lemma fromordinal_toordinal d : wf_date d -> fromordinal (toordinal d) = d.
Proof.
  intros W. destruct (ord2ymd_correct (toordinal d)) as [E W'].
  now apply toordinal_inj.
Qed.

Lemma valid_date_wf d : valid_date d = true -> wf_date d.
Proof.
  unfold valid_date, wf_date. intros H.
  repeat (apply andb_true_iff in H; destruct H as [H ?]). lia.
Qed.

End CalendarFacts.

Module DayArithmetic.

Import Datetime Pandas Xgb App DateFacts CalendarFacts LoopFacts RunFacts.

Lemma toordinal_range d :
  valid_date d = true -> 1 <= toordinal d <= _MAXORDINAL.
Proof.
  intros Hv. pose proof (valid_date_fields d Hv) as [Hy _].
  pose proof (toordinal_window d (valid_date_wf d Hv)) as [Hlo Hhi].
  pose proof (dby_mono 1 (year d) ltac:(lia)) as H1.
  pose proof (dby_mono (year d + 1) 10000 ltac:(lia)) as H2.
  change (_days_before_year 1) with 0 in H1.
  change (_days_before_year 10000) with 3652059 in H2.
  unfold _MAXORDINAL. lia.
Qed.

Lemma fromordinal_valid n :
  1 <= n <= _MAXORDINAL -> valid_date (fromordinal n) = true.
Proof.
  intros Hn. destruct (ord2ymd_correct n) as [E W].
  pose proof (toordinal_window _ W) as [Hlo Hhi]. rewrite E in Hlo, Hhi.
  assert (Hy : 1 <= year (fromordinal n) <= 9999).
  { unfold _MAXORDINAL in Hn. split.
    - destruct (Z_le_gt_dec 1 (year (fromordinal n))) as [? | G]; trivial.
      pose proof (dby_mono (year (fromordinal n) + 1) 1 ltac:(lia)) as H1.
      change (_days_before_year 1) with 0 in H1. lia.
    - destruct (Z_le_gt_dec (year (fromordinal n)) 9999) as [? | G]; trivial.
      pose proof (dby_mono 10000 (year (fromordinal n)) ltac:(lia)) as H2.
      change (_days_before_year 10000) with 3652059 in H2. lia. }
  destruct W as [Hm Hd]. unfold valid_date.
  repeat (apply andb_true_iff; split); apply Z.leb_le; lia.
Qed.

Lemma add_days_Ok d k p :
  add_days d k = Ok p ->
  toordinal p = toordinal d + k /\ valid_date p = true.
Proof.
  unfold add_days. cbv zeta.
  destruct (Z.ltb_spec 0 (toordinal d + k)); [| discriminate].
  destruct (Z.leb_spec (toordinal d + k) _MAXORDINAL); [| discriminate].
  cbn [andb]. intros [= <-]. split.
  - apply ord2ymd_correct.
  - apply fromordinal_valid. lia.
Qed.

Lemma sub_days_Ok d k p :
  sub_days d k = Ok p ->
  toordinal p = toordinal d - k /\ valid_date p = true.
Proof.
  unfold sub_days. cbv zeta.
  destruct (Z.ltb_spec 0 (toordinal d - k)); [| discriminate].
  destruct (Z.leb_spec (toordinal d - k) _MAXORDINAL); [| discriminate].
  cbn [andb]. intros [= <-]. split.
  - apply ord2ymd_correct.
  - apply fromordinal_valid. lia.
Qed.

(** Two valid dates with the same ordinal are the same date. *)
Lemma valid_date_by_ordinal d d' :
  valid_date d = true -> valid_date d' = true ->
  toordinal d = toordinal d' -> d = d'.
Proof. intros V V'. apply toordinal_inj; now apply valid_date_wf. Qed.

Lemma weekday_of_ordinal d d' k :
  toordinal d' = toordinal d + k -> weekday d' = (weekday d + k) mod 7.
Proof.
  intros E. unfold weekday. rewrite E. Z.div_mod_to_equations. lia.
Qed.

(** The ordinal of the last day of the month before. *)
Lemma days_before_month_step y m :
  2 <= m <= 12 ->
  _days_before_month y m
  = _days_before_month y (m - 1) + _days_in_month y (m - 1).
Proof.
  intros Hm. unfold _days_before_month, _days_in_month.
  assert (C : m = 2 \/ m = 3 \/ m = 4 \/ m = 5 \/ m = 6 \/ m = 7 \/ m = 8
              \/ m = 9 \/ m = 10 \/ m = 11 \/ m = 12) by lia.
  destruct (_is_leap y);
    destruct C as [-> | [-> | [-> | [-> | [-> | [-> | [-> | [-> | [-> | [-> | ->]]]]]]]]]];
    reflexivity.
Qed.

Lemma days_in_month_range y m :
  1 <= m <= 12 -> 28 <= _days_in_month y m <= 31.
Proof.
  intros Hm. unfold _days_in_month.
  destruct (month_cases m Hm) as
    [-> | [-> | [-> | [-> | [-> | [-> | [-> | [-> | [-> | [-> | [-> | ->]]]]]]]]]]];
    destruct (_is_leap y); simpl; lia.
Qed.

(** X1. For a valid target date, [prev_date] is the calendar day before
    it: a valid date whose ordinal is one less and whose weekday is the
    one before; the same month and year with the day lowered by one, or
    the last day of the month before on the first of a month, or 31
    December of the year before on 1 January.  Adding the day back gives
    the target date again. *)
Theorem prev_date_is_the_day_before inp p
    (Hv : valid_date (target_date inp) = true)
    (Hp : prev_date inp = Ok p) :
  valid_date p = true
  /\ toordinal p = toordinal (target_date inp) - 1
  /\ weekday p = (weekday (target_date inp) + 6) mod 7
  /\ (1 < day (target_date inp) ->
      p = mkdate (year (target_date inp)) (month (target_date inp))
                 (day (target_date inp) - 1))
  /\ (day (target_date inp) = 1 -> 1 < month (target_date inp) ->
      p = mkdate (year (target_date inp)) (month (target_date inp) - 1)
                 (_days_in_month (year (target_date inp))
                                 (month (target_date inp) - 1)))
  /\ (day (target_date inp) = 1 -> month (target_date inp) = 1 ->
      p = mkdate (year (target_date inp) - 1) 12 31)
  /\ add_days p 1 = Ok (target_date inp).
Proof.
  unfold prev_date in Hp. destruct (sub_days_Ok _ _ _ Hp) as [Eo Vp].
  pose proof (valid_date_fields _ Hv) as [Hy [Hm Hd]].
  pose proof (toordinal_range _ Hv) as Rt.
  pose proof (toordinal_range _ Vp) as Rp.
  set (t := target_date inp) in *.
  split; [exact Vp | split; [exact Eo | split]].
  { unfold weekday. rewrite Eo. Z.div_mod_to_equations. lia. }
  assert (Hcase : forall q, wf_date q -> toordinal q = toordinal t - 1 -> p = q).
  { intros q Wq Eq. apply toordinal_inj; trivial.
    - now apply valid_date_wf.
    - congruence. }
  split; [| split; [| split]].
  - intros H1. apply Hcase.
    + split; cbn [year month day]; lia.
    + unfold toordinal, _ymd2ord. cbn [year month day]. lia.
  - intros H1 Hm1. apply Hcase.
    + pose proof (days_in_month_range (year t) (month t - 1) ltac:(lia)).
      split; cbn [year month day]; lia.
    + unfold toordinal, _ymd2ord. cbn [year month day].
      rewrite (days_before_month_step (year t) (month t)) by lia. lia.
  - intros H1 Hm1. apply Hcase.
    + split; cbn [year month day]; [lia |].
      unfold _days_in_month. change (12 =? 2) with false. simpl. lia.
    + unfold toordinal, _ymd2ord, _days_before_month. cbn [year month day].
      rewrite Hm1, H1.
      pose proof (dby_step (year t - 1)) as S.
      replace (year t - 1 + 1) with (year t) in S by lia.
      change (2 <? 12) with true. change (2 <? 1) with false.
      cbn [_DAYS_BEFORE_MONTH andb]. cbn [Py.int_of_bool]. lia.
  - unfold add_days. cbv zeta. rewrite Eo.
    replace (toordinal t - 1 + 1) with (toordinal t) by lia.
    destruct (Z.ltb_spec 0 (toordinal t)); [| lia].
    destruct (Z.leb_spec (toordinal t) _MAXORDINAL); [| lia].
    cbn [andb]. f_equal. apply fromordinal_toordinal.
    now apply valid_date_wf.
Qed.

Lemma prev_date_is_the_day_before_witness :
  prev_date (mkInputs (mkdate 2024 3 1) 1200 "晴") = Ok (mkdate 2024 2 29)
  /\ weekday (mkdate 2024 2 29) = (weekday (mkdate 2024 3 1) + 6) mod 7.
Proof.
  assert (Hp : prev_date (mkInputs (mkdate 2024 3 1) 1200 "晴")
               = Ok (mkdate 2024 2 29)) by reflexivity.
  split; [exact Hp |].
  apply (prev_date_is_the_day_before
           (mkInputs (mkdate 2024 3 1) 1200 "晴") (mkdate 2024 2 29)
           eq_refl Hp).
Defined.

End DayArithmetic.

Module PrevHoliday.

Import Datetime Pandas Xgb App DateFacts CalendarFacts LoopFacts RunFacts
       DayArithmetic.

Lemma prev_date_Ok inp :
  valid_date (target_date inp) = true -> target_date inp <> date_min ->
  exists p, prev_date inp = Ok p.
Proof.
  intros Hv Hne. pose proof (sub_days_one_ok _ Hv Hne) as H.
  unfold prev_date. destruct (sub_days (target_date inp) 1); [eauto | discriminate].
Qed.

(** X2. The flag for the day before, read off the target date: it is set
    exactly when the holiday table has the day before, or the target date
    is a Sunday or a Monday, or the target date is 30 or 31 December or
    1 to 4 January. *)
Theorem prev_holiday_by_target_date jp inp
    (Hv : valid_date (target_date inp) = true)
    (Hne : target_date inp <> date_min) :
  exists p,
    prev_date inp = Ok p
    /\ is_prev_holiday jp inp =
       Ok (jp p
           || (weekday (target_date inp) =? 0)
           || (weekday (target_date inp) =? sunday)
           || ((month (target_date inp) =? 12) && (30 <=? day (target_date inp)))
           || ((month (target_date inp) =? 1) && (day (target_date inp) <=? 4))).
Proof.
  destruct (prev_date_Ok inp Hv Hne) as [p Hp]. exists p. split; trivial.
  unfold is_prev_holiday. rewrite Hp. cbn [bind]. f_equal.
  destruct (prev_date_is_the_day_before inp p Hv Hp)
    as [Vp [_ [Hw [Hmid [Hfirst [Hjan _]]]]]].
  pose proof (valid_date_fields _ Hv) as [Hy [Hm Hd]].
  pose proof (weekday_range (target_date inp)) as Rw.
  unfold non_working_day, sunday. rewrite Hw.
  set (t := target_date inp) in *.
  destruct (jp p); cbn [orb]; trivial.
  assert (Hwk : (5 <=? (weekday t + 6) mod 7)
                = (weekday t =? 0) || (weekday t =? 6)).
  { destruct (Z.leb_spec 5 ((weekday t + 6) mod 7)),
             (Z.eqb_spec (weekday t) 0), (Z.eqb_spec (weekday t) 6);
      cbn [orb]; trivial; exfalso; Z.div_mod_to_equations; lia. }
  rewrite Hwk.
  destruct ((weekday t =? 0) || (weekday t =? 6)); cbn [orb]; trivial.
  destruct (Z_lt_le_dec 1 (day t)) as [Hgt | Hle].
  - rewrite (Hmid Hgt). cbn [year month day].
    destruct (Z.eqb_spec (month t) 12), (Z.eqb_spec (month t) 1),
             (Z.leb_spec 29 (day t - 1)), (Z.leb_spec (day t - 1) 3),
             (Z.leb_spec 30 (day t)), (Z.leb_spec (day t) 4);
      cbn [andb orb]; trivial; lia.
  - assert (H1 : day t = 1) by lia.
    destruct (Z.eq_dec (month t) 1) as [Hm1 | Hm1].
    + rewrite (Hjan H1 Hm1). cbn [year month day]. rewrite Hm1, H1. reflexivity.
    + rewrite (Hfirst H1 ltac:(lia)). cbn [year month day].
      pose proof (days_in_month_range (year t) (month t - 1) ltac:(lia)).
      rewrite H1.
      destruct (Z.eqb_spec (month t - 1) 12), (Z.eqb_spec (month t - 1) 1),
               (Z.eqb_spec (month t) 12), (Z.eqb_spec (month t) 1),
               (Z.leb_spec (_days_in_month (year t) (month t - 1)) 3);
        cbn [andb orb]; trivial; try lia.
      all: change (30 <=? 1) with false; cbn [andb orb]; trivial.
      all: destruct (29 <=? _days_in_month (year t) (month t - 1)); trivial.
Qed.

Lemma prev_holiday_by_target_date_witness :
  is_prev_holiday Sample.holidays (mkInputs (mkdate 2025 6 9) 1200 "晴") = Ok true
  /\ is_prev_holiday Sample.holidays (mkInputs (mkdate 2025 6 10) 1200 "晴") = Ok false.
Proof.
  split.
  - destruct (prev_holiday_by_target_date Sample.holidays
                (mkInputs (mkdate 2025 6 9) 1200 "晴") eq_refl
                ltac:(discriminate)) as [p [Hp ->]].
    injection Hp as <-. reflexivity.
  - destruct (prev_holiday_by_target_date Sample.holidays
                (mkInputs (mkdate 2025 6 10) 1200 "晴") eq_refl
                ltac:(discriminate)) as [p [Hp ->]].
    injection Hp as <-. reflexivity.
Defined.

(** X3. Among valid target dates, the day before is missing for
    [date.min] only: there the subtraction raises [OverflowError], and
    the run returns no table, whatever the holiday table, the models, the
    patient count and the weather. *)
Theorem prev_date_fails_only_at_date_min inp
    (Hv : valid_date (target_date inp) = true) :
  (prev_date inp = Raise OverflowError <-> target_date inp = date_min)
  /\ (is_ok (prev_date inp) = false <-> target_date inp = date_min)
  /\ (target_date inp = date_min ->
      forall jp m, is_ok (run jp m inp) = false).
Proof.
  assert (Hmin : target_date inp = date_min -> prev_date inp = Raise OverflowError).
  { intros E. unfold prev_date. rewrite E. reflexivity. }
  assert (Hok : target_date inp <> date_min -> is_ok (prev_date inp) = true).
  { intros Hne. destruct (prev_date_Ok inp Hv Hne) as [p ->]. reflexivity. }
  destruct (Z.eq_dec (toordinal (target_date inp)) 1) as [E1 | N1].
  - assert (E : target_date inp = date_min)
      by (apply valid_date_by_ordinal; trivial).
    split; [| split].
    + split; intros _; [exact E | now apply Hmin].
    + split; intros _; [exact E |]. rewrite (Hmin E). reflexivity.
    + intros _ jp m. unfold run, run_trace, is_prev_holiday.
      rewrite (Hmin E). reflexivity.
  - assert (Hne : target_date inp <> date_min)
      by (intros E; apply N1; rewrite E; reflexivity).
    specialize (Hok Hne).
    split; [| split].
    + split; [| contradiction]. intros H. rewrite H in Hok. discriminate.
    + split; [| contradiction]. intros H. congruence.
    + contradiction.
Qed.

Lemma prev_date_fails_only_at_date_min_witness :
  prev_date (mkInputs date_min 1200 "雨") = Raise OverflowError
  /\ is_ok (run Sample.holidays Sample.models (mkInputs date_min 1200 "雨"))
     = false.
Proof.
  destruct (prev_date_fails_only_at_date_min (mkInputs date_min 1200 "雨") eq_refl)
    as [[_ Hraise] [_ Hrun]].
  split.
  - apply Hraise. reflexivity.
  - apply Hrun. reflexivity.
Defined.

(** X4. The date the picker opens on, tomorrow, is a valid date one
    weekday after today, and the day before it is today again.  Only on
    31 December 9999 is there no tomorrow. *)
Theorem default_date_round_trip today total w
    (Hv : valid_date today = true) :
  (forall t, default_target_date today = Ok t ->
     valid_date t = true
     /\ toordinal t = toordinal today + 1
     /\ weekday t = (weekday today + 1) mod 7
     /\ prev_date (mkInputs t total w) = Ok today)
  /\ (default_target_date today = Raise OverflowError
      <-> today = mkdate 9999 12 31).
Proof.
  pose proof (toordinal_range _ Hv) as R.
  split.
  - intros t Ht. unfold default_target_date in Ht.
    destruct (add_days_Ok _ _ _ Ht) as [Eo Vt].
    pose proof (toordinal_range _ Vt) as Rt.
    split; [exact Vt | split; [exact Eo | split]].
    + now apply weekday_of_ordinal.
    + unfold prev_date, sub_days. cbn [target_date]. cbv zeta. rewrite Eo.
      replace (toordinal today + 1 - 1) with (toordinal today) by lia.
      destruct (Z.ltb_spec 0 (toordinal today)); [| lia].
      destruct (Z.leb_spec (toordinal today) _MAXORDINAL); [| lia].
      cbn [andb]. f_equal. apply fromordinal_toordinal.
      now apply valid_date_wf.
  - unfold default_target_date, add_days. cbv zeta.
    destruct (Z.ltb_spec 0 (toordinal today + 1)); [| lia].
    destruct (Z.leb_spec (toordinal today + 1) _MAXORDINAL) as [L | G];
      cbn [andb].
    + split; [discriminate |]. intros ->. unfold _MAXORDINAL in L.
      change (toordinal (mkdate 9999 12 31)) with 3652059 in L. lia.
    + split; trivial. intros _.
      apply valid_date_by_ordinal; trivial.
      change (toordinal (mkdate 9999 12 31)) with _MAXORDINAL. lia.
Qed.

Lemma default_date_round_trip_witness :
  default_target_date (mkdate 2025 12 31) = Ok (mkdate 2026 1 1)
  /\ prev_date (mkInputs (mkdate 2026 1 1) 1200 "晴") = Ok (mkdate 2025 12 31).
Proof.
  assert (Ht : default_target_date (mkdate 2025 12 31) = Ok (mkdate 2026 1 1))
    by reflexivity.
  split; [exact Ht |].
  apply (proj1 (default_date_round_trip (mkdate 2025 12 31) 1200 "晴" eq_refl)
               (mkdate 2026 1 1) Ht).
Defined.

End PrevHoliday.

Module MatrixCells.

Import Datetime Pandas Xgb App PyFacts FrameFacts LoopFacts DateFacts RunFacts.

(** A column whose name does not start like a lag column is untouched by
    the lag loop. *)
Lemma count_cells_no_lag hol prev_hol total w lags ts c :
  (forall s, c <> String "l" s) ->
  count_cells hol prev_hol total w lags ts c
  = count_cells hol prev_hol total w [] ts c.
Proof.
  intros Hc. unfold count_cells. cbn [lag_cells].
  apply lag_cells_other. now apply not_lag_col.
Qed.

Lemma count_cells_clock hol prev_hol total w lags ts :
  count_cells hol prev_hol total w lags ts col_hour = hour ts
  /\ count_cells hol prev_hol total w lags ts col_minute = minute ts.
Proof.
  split; rewrite count_cells_no_lag by (intros s; discriminate); reflexivity.
Qed.

Lemma multi_cells_clock hol prev_hol total w r q ts :
  multi_cells hol prev_hol total w r q ts col_hour = hour ts
  /\ multi_cells hol prev_hol total w r q ts col_minute = minute ts.
Proof. split; reflexivity. Qed.

Lemma run_trace_index jp m inp trace n it :
  run_trace jp m inp = Ok trace -> nth_error trace n = Some it ->
  (n < 21)%nat.
Proof.
  intros Hrun Hn. destruct (run_trace_pass _ _ _ _ Hrun) as [_ [_ [L _]]].
  rewrite <- L. apply nth_error_Some. congruence.
Qed.

Lemma slot_clock (n : nat) :
  (480 + Z.of_nat n * 30) / 60 = 8 + Z.of_nat n / 2
  /\ (480 + Z.of_nat n * 30) mod 60 = 30 * (Z.of_nat n mod 2).
Proof. Z.div_mod_to_equations. lia. Qed.

(** X5. Slot [n] of a run (counted from 0) is the minute 480 + 30 n of
    the target date: its hour is 8 + n / 2, between 8 and 18, and its
    minute is 0 for even [n] and 30 for odd [n].  These are the hour and
    minute cells of both matrices of the slot, where the schema lists
    them, and the two fields of its row label. *)
Theorem clock_cells jp m inp trace n it
    (Hrun : run_trace jp m inp = Ok trace)
    (Hn : nth_error trace n = Some it) :
  it_ts it = mkts (target_date inp) (480 + Z.of_nat n * 30)
  /\ (hour (it_ts it) = 8 + Z.of_nat n / 2
      /\ minute (it_ts it) = 30 * (Z.of_nat n mod 2))
  /\ (8 <= hour (it_ts it) <= 18
      /\ (minute (it_ts it) = 0 \/ minute (it_ts it) = 30))
  /\ (cell col_hour (it_dcount it) =
        (if listed col_hour (count_cols m)
         then Some (8 + Z.of_nat n / 2) else None)
      /\ cell col_minute (it_dcount it) =
         (if listed col_minute (count_cols m)
          then Some (30 * (Z.of_nat n mod 2)) else None))
  /\ (cell col_hour (it_dmulti it) =
        (if listed col_hour (multi_cols m)
         then Some (8 + Z.of_nat n / 2) else None)
      /\ cell col_minute (it_dmulti it) =
         (if listed col_minute (multi_cols m)
          then Some (30 * (Z.of_nat n mod 2)) else None))
  /\ time_label (it_row it)
     = (Py.two_digits (8 + Z.of_nat n / 2) ++ ":"
        ++ Py.two_digits (30 * (Z.of_nat n mod 2)))%string.
Proof.
  pose proof (run_trace_index _ _ _ _ _ _ Hrun Hn) as Hlt.
  destruct (run_trace_pass _ _ _ _ Hrun) as [ph [_ [_ Hall]]].
  pose proof (Hall n it Hn) as Hp.
  pose proof (pass_ts Hp) as Hts.
  destruct (slot_clock n) as [Hh Hm].
  assert (Hhour : hour (it_ts it) = 8 + Z.of_nat n / 2)
    by (rewrite Hts; unfold hour; cbn [ts_minutes]; exact Hh).
  assert (Hmin : minute (it_ts it) = 30 * (Z.of_nat n mod 2))
    by (rewrite Hts; unfold minute; cbn [ts_minutes]; exact Hm).
  split; [exact Hts | split; [now split | split; [| split; [| split]]]].
  - rewrite Hhour, Hmin. split; Z.div_mod_to_equations; lia.
  - rewrite !(pass_cell_count _ _ _ _ _ _ _ _ _ _ Hp).
    destruct (count_cells_clock (is_holiday jp inp) ph (total_patients inp)
                (weather inp) (fst (state_before [0; 0; 0] 0 trace n))
                (mkts (target_date inp) (480 + Z.of_nat n * 30))) as [-> ->].
    unfold hour, minute. cbn [ts_minutes]. rewrite Hh, Hm. now split.
  - rewrite !(pass_cell_multi _ _ _ _ _ _ _ _ _ _ Hp).
    destruct (multi_cells_clock (is_holiday jp inp) ph (total_patients inp)
                (weather inp) (it_reception it)
                (snd (state_before [0; 0; 0] 0 trace n))
                (mkts (target_date inp) (480 + Z.of_nat n * 30))) as [-> ->].
    unfold hour, minute. cbn [ts_minutes]. rewrite Hh, Hm. now split.
  - rewrite (pass_row Hp). cbn [time_label]. unfold strftime_HM, hour, minute.
    cbn [ts_minutes]. now rewrite Hh, Hm.
Qed.

Lemma clock_cells_witness :
  cell col_hour (it_dcount (Sample.pass 5)) = Some 10
  /\ cell col_minute (it_dmulti (Sample.pass 5)) = Some 30
  /\ time_label (it_row (Sample.pass 5)) = "10:30"%string.
Proof.
  assert (Hrun : run_trace Sample.holidays Sample.models Sample.inputs
                 = Ok Sample.trace) by (vm_compute; reflexivity).
  assert (Hn : nth_error Sample.trace 5 = Some (Sample.pass 5)) by reflexivity.
  destruct (clock_cells _ _ _ _ _ _ Hrun Hn)
    as [_ [_ [_ [[Hh _] [[_ Hm] Hl]]]]].
  split; [| split].
  - rewrite Hh. reflexivity.
  - rewrite Hm. reflexivity.
  - rewrite Hl. reflexivity.
Defined.

(** X6. The day's context is the same in every slot: in both matrices the
    is_holiday cell is the flag of the target date, the
    total_outpatient_count cell is the number of patients entered (from 0
    to 5000, as the number input allows), and the cell for the day before
    is the flag of that day, as 0 or 1. *)
Theorem context_cells jp m inp trace n it
    (Htotal : 0 <= total_patients inp <= 5000)
    (Hrun : run_trace jp m inp = Ok trace)
    (Hn : nth_error trace n = Some it) :
  exists prev_hol,
    is_prev_holiday jp inp = Ok prev_hol
    /\ (cell col_is_holiday (it_dcount it) =
          (if listed col_is_holiday (count_cols m)
           then Some (Py.int_of_bool (is_holiday jp inp)) else None)
        /\ cell col_total (it_dcount it) =
           (if listed col_total (count_cols m)
            then Some (total_patients inp) else None)
        /\ cell col_prev_holiday (it_dcount it) =
           (if listed col_prev_holiday (count_cols m)
            then Some (Py.int_of_bool prev_hol) else None))
    /\ (cell col_is_holiday (it_dmulti it) =
          (if listed col_is_holiday (multi_cols m)
           then Some (Py.int_of_bool (is_holiday jp inp)) else None)
        /\ cell col_total (it_dmulti it) =
           (if listed col_total (multi_cols m)
            then Some (total_patients inp) else None)
        /\ cell col_prev_holiday (it_dmulti it) =
           (if listed col_prev_holiday (multi_cols m)
            then Some (Py.int_of_bool prev_hol) else None)).
Proof.
  destruct (run_trace_pass _ _ _ _ Hrun) as [ph [Hph [_ Hall]]].
  pose proof (Hall n it Hn) as Hp.
  exists ph. split; [exact Hph | split].
  - rewrite !(pass_cell_count _ _ _ _ _ _ _ _ _ _ Hp).
    repeat split;
      rewrite count_cells_no_lag by (intros s; discriminate); reflexivity.
  - rewrite !(pass_cell_multi _ _ _ _ _ _ _ _ _ _ Hp).
    repeat split; reflexivity.
Qed.

Lemma context_cells_witness :
  cell col_total (it_dcount (Sample.pass 20)) = Some 1200
  /\ cell col_is_holiday (it_dmulti (Sample.pass 20)) = Some 0.
Proof.
  assert (Hrun : run_trace Sample.holidays Sample.models Sample.inputs
                 = Ok Sample.trace) by (vm_compute; reflexivity).
  assert (Hn : nth_error Sample.trace 20 = Some (Sample.pass 20)) by reflexivity.
  assert (Htotal : 0 <= total_patients Sample.inputs <= 5000)
    by (simpl; lia).
  destruct (context_cells _ _ _ _ _ _ Htotal Hrun Hn)
    as [ph [_ [[_ [Ht _]] [Hh _]]]].
  split.
  - rewrite Ht. reflexivity.
  - rewrite Hh. reflexivity.
Defined.

End MatrixCells.

Module LagFacts.

Import Datetime Pandas Xgb App PyFacts FrameFacts LoopFacts DateFacts RunFacts
       MatrixCells.

(** ** Lag column names are pairwise distinct *)






(** ** The lag list at each slot *)

Lemma past_arrivals_shift trace n j :
  past_arrivals trace (S n) (S j) = past_arrivals trace n j.
Proof.
  unfold past_arrivals. change (S j <? S n)%nat with (j <? n)%nat.
  destruct (j <? n)%nat eqn:E; trivial.
  apply Nat.ltb_lt in E. replace (S n - 1 - S j)%nat with (n - 1 - j)%nat by lia.
  reflexivity.
Qed.

Lemma past_arrivals_newest trace n p :
  nth_error trace n = Some p ->
  past_arrivals trace (S n) 0 = predicted_arrivals (it_row p).
Proof.
  intros Hn. unfold past_arrivals. cbn [Nat.ltb Nat.leb].
  replace (S n - 1 - 0)%nat with n by lia. now rewrite Hn.
Qed.

Lemma nth_error_pred {A : Type} (l : list A) n (x : A) :
  nth_error l (S n) = Some x -> exists y, nth_error l n = Some y.
Proof.
  intros H. assert (Hlt : (S n < length l)%nat)
    by (apply nth_error_Some; congruence).
  destruct (nth_error l n) eqn:E; [eauto |].
  apply nth_error_None in E. lia.
Qed.

Lemma lags_are_past_arrivals jp m inp trace :
  run_trace jp m inp = Ok trace ->
  forall n it, nth_error trace n = Some it ->
  it_lags it = [past_arrivals trace n 0; past_arrivals trace n 1;
                past_arrivals trace n 2].
Proof.
  intros Hrun.
  destruct (run_trace_pass _ _ _ _ Hrun) as [ph [_ [_ Hall]]].
  destruct (pass_entry _ _ _ _ Hrun) as [H0 HS].
  induction n as [| n IH]; intros it Hn.
  - destruct (H0 it Hn) as [-> _]. reflexivity.
  - destruct (nth_error_pred _ _ _ Hn) as [p Hp].
    destruct (HS n p it Hp Hn) as [-> _].
    pose proof (Hall n p Hp) as P.
    rewrite (pass_lags_next P), <- (pass_lags P), (IH p Hp).
    cbn [firstn]. rewrite !past_arrivals_shift.
    rewrite (past_arrivals_newest trace n p Hp).
    rewrite (pass_row P). reflexivity.
Qed.

Lemma past_arrivals_nonneg jp m inp trace n j :
  run_trace jp m inp = Ok trace -> 0 <= past_arrivals trace n j.
Proof.
  intros Hrun. unfold past_arrivals.
  destruct (j <? n)%nat; [| lia].
  destruct (nth_error trace (n - 1 - j)) as [p |] eqn:E; [| lia].
  destruct (run_trace_pass _ _ _ _ Hrun) as [ph [_ [_ Hall]]].
  pose proof (Hall _ p E) as P.
  rewrite (pass_row P). cbn [predicted_arrivals].
  rewrite (pass_reception P). apply clamp_round_nonneg.
Qed.

Lemma count_cells_lags hol prev_hol total w a b c ts :
  count_cells hol prev_hol total w [a; b; c] ts (lag_col 0) = a
  /\ count_cells hol prev_hol total w [a; b; c] ts (lag_col 1) = b
  /\ count_cells hol prev_hol total w [a; b; c] ts (lag_col 2) = c.
Proof. repeat split; reflexivity. Qed.

(** X7. The three lag cells of a slot's count matrix are the arrivals
    predicted for the three slots before it, newest first: lag_30min is
    the count of the slot just before, lag_60min the one before that,
    lag_90min the third back, each 0 while the run has not yet seen that
    many slots.  (A lag column the schema does not list has no cell.) *)
Theorem lag_cells_are_past_arrivals jp m inp trace n it
    (Hrun : run_trace jp m inp = Ok trace)
    (Hn : nth_error trace n = Some it) :
  it_lags it = [past_arrivals trace n 0; past_arrivals trace n 1;
                past_arrivals trace n 2]
  /\ (forall k, (k < 3)%nat ->
        cell (lag_col k) (it_dcount it) =
        if listed (lag_col k) (count_cols m)
        then Some (past_arrivals trace n k) else None)
  /\ (forall k p, (k < n)%nat -> nth_error trace (n - 1 - k) = Some p ->
        past_arrivals trace n k = predicted_arrivals (it_row p))
  /\ (forall k, (n <= k)%nat -> past_arrivals trace n k = 0)
  /\ [lag_col 0; lag_col 1; lag_col 2]
     = ["lag_30min"; "lag_60min"; "lag_90min"]%string.
Proof.
  pose proof (lags_are_past_arrivals _ _ _ _ Hrun n it Hn) as Hl.
  destruct (run_trace_pass _ _ _ _ Hrun) as [ph [_ [_ Hall]]].
  pose proof (Hall n it Hn) as P.
  split; [exact Hl | split; [| split; [| split]]].
  - intros k Hk. rewrite (pass_cell_count _ _ _ _ _ _ _ _ _ _ P).
    destruct (listed (lag_col k) (count_cols m)); trivial. f_equal.
    rewrite <- (pass_lags P), Hl.
    destruct (count_cells_lags (is_holiday jp inp) ph (total_patients inp)
                (weather inp) (past_arrivals trace n 0)
                (past_arrivals trace n 1) (past_arrivals trace n 2)
                (mkts (target_date inp) (480 + Z.of_nat n * 30)))
      as [E0 [E1 E2]].
    destruct k as [| [| [| k]]]; trivial. lia.
  - intros k p Hk Hp. unfold past_arrivals.
    apply Nat.ltb_lt in Hk. now rewrite Hk, Hp.
  - intros k Hk. unfold past_arrivals.
    destruct (Nat.ltb_spec k n); [lia | reflexivity].
  - reflexivity.
Qed.

Lemma lag_cells_are_past_arrivals_witness :
  cell "lag_60min" (it_dcount (Sample.pass 2)) = Some 8
  /\ cell "lag_90min" (it_dcount (Sample.pass 2)) = Some 0
  /\ predicted_arrivals (it_row (Sample.pass 0)) = 8.
Proof.
  assert (Hrun : run_trace Sample.holidays Sample.models Sample.inputs
                 = Ok Sample.trace) by (vm_compute; reflexivity).
  assert (Hn : nth_error Sample.trace 2 = Some (Sample.pass 2)) by reflexivity.
  destruct (lag_cells_are_past_arrivals _ _ _ _ _ _ Hrun Hn) as [_ [Hc _]].
  split; [| split].
  - change "lag_60min"%string with (lag_col 1). rewrite (Hc 1%nat) by lia.
    reflexivity.
  - change "lag_90min"%string with (lag_col 2). rewrite (Hc 2%nat) by lia.
    reflexivity.
  - reflexivity.
Defined.

End LagFacts.

Module CellFacts.

Import Datetime Pandas Xgb App PyFacts FrameFacts LoopFacts DateFacts RunFacts
       MatrixCells LagFacts.






(** ** Signs of the cells *)

Lemma upd_nonneg f c v :
  (forall k, 0 <= f k) -> 0 <= v -> forall k, 0 <= upd f c v k.
Proof. intros Hf Hv k. unfold upd. destruct (String.eqb k c); auto. Qed.

Lemma lag_cells_nonneg lags : forall f i,
  (forall k, 0 <= f k) -> Forall (fun x => 0 <= x) lags ->
  forall k, 0 <= lag_cells f i lags k.
Proof.
  induction lags as [| lag rest IH]; intros f i Hf Hl k; cbn [lag_cells]; auto.
  inversion Hl as [| ? ? Hlag Hrest]; subst.
  apply IH; trivial. now apply upd_nonneg.
Qed.

Lemma int_of_bool_nonneg b : 0 <= Py.int_of_bool b.
Proof. destruct b; simpl; lia. Qed.

Lemma hour_minute_nonneg ts : 0 <= ts_minutes ts -> 0 <= hour ts /\ 0 <= minute ts.
Proof. unfold hour, minute. intros H. Z.div_mod_to_equations. lia. Qed.

Lemma count_cells_nonneg hol prev_hol total w lags ts :
  0 <= total -> 0 <= ts_minutes ts -> Forall (fun x => 0 <= x) lags ->
  forall k, 0 <= count_cells hol prev_hol total w lags ts k.
Proof.
  intros Ht Hts Hl. destruct (hour_minute_nonneg ts Hts) as [Hh Hm].
  unfold count_cells. apply lag_cells_nonneg; trivial.
  repeat (apply upd_nonneg; [| trivial || apply int_of_bool_nonneg]).
  intros _. lia.
Qed.

Lemma multi_cells_nonneg hol prev_hol total w r q ts :
  0 <= total -> 0 <= ts_minutes ts -> 0 <= r -> 0 <= q ->
  forall k, 0 <= multi_cells hol prev_hol total w r q ts k.
Proof.
  intros Ht Hts Hr Hq. destruct (hour_minute_nonneg ts Hts) as [Hh Hm].
  unfold multi_cells.
  repeat (apply upd_nonneg; [| trivial || apply int_of_bool_nonneg]).
  intros _. lia.
Qed.

(** X9. With a patient count that is not negative, as the number input
    allows no other, no cell of any matrix handed to a booster is
    negative, and neither is any entry of the lag list or the carried
    queue. *)
Theorem matrix_cells_are_not_negative jp m inp trace n it
    (Htotal : 0 <= total_patients inp)
    (Hrun : run_trace jp m inp = Ok trace)
    (Hn : nth_error trace n = Some it) :
  (forall c v, In (c, v) (it_dcount it) -> 0 <= v)
  /\ (forall c v, In (c, v) (it_dmulti it) -> 0 <= v)
  /\ Forall (fun x => 0 <= x) (it_lags it)
  /\ 0 <= it_queue_at_start it
  /\ Forall (fun x => 0 <= x) (it_lags_next it)
  /\ 0 <= it_queue_next it.
Proof.
  destruct (run_trace_pass _ _ _ _ Hrun) as [ph [_ [_ Hall]]].
  pose proof (Hall n it Hn) as P.
  destruct (pass_entry _ _ _ _ Hrun) as [H0 HS].
  assert (Hlags : Forall (fun x => 0 <= x) (it_lags it)).
  { rewrite (lags_are_past_arrivals _ _ _ _ Hrun n it Hn).
    repeat constructor; eapply past_arrivals_nonneg, Hrun. }
  assert (Hq : 0 <= it_queue_at_start it).
  { destruct n as [| k].
    - destruct (H0 it Hn) as [_ ->]. lia.
    - destruct (nth_error_pred _ _ _ Hn) as [p Hp].
      destruct (HS k p it Hp Hn) as [_ ->].
      rewrite (pass_queue_next (Hall k p Hp)), (pass_queue_pred (Hall k p Hp)).
      apply clamp_round_nonneg. }
  assert (Hr : 0 <= it_reception it)
    by (rewrite (pass_reception P); apply clamp_round_nonneg).
  assert (Hts : 0 <= ts_minutes (mkts (target_date inp) (480 + Z.of_nat n * 30)))
    by (cbn [ts_minutes]; lia).
  split; [| split; [| split; [| split; [| split]]]]; trivial.
  - intros c v Hin. rewrite (pass_dcount P) in Hin.
    apply in_map_iff in Hin. destruct Hin as [k [[= <- <-] _]].
    apply count_cells_nonneg; trivial. now rewrite <- (pass_lags P).
  - intros c v Hin. rewrite (pass_dmulti P) in Hin.
    apply in_map_iff in Hin. destruct Hin as [k [[= <- <-] _]].
    apply multi_cells_nonneg; trivial. now rewrite <- (pass_queue_at_start P).
  - rewrite (pass_lags_next P), <- (pass_lags P). constructor; trivial.
    destruct (it_lags it) as [| a [| b l]]; cbn [firstn]; trivial.
    inversion Hlags as [| ? ? Ha Hl']; subst.
    inversion Hl' as [| ? ? Hb _]; subst. repeat constructor; trivial.
  - rewrite (pass_queue_next P), (pass_queue_pred P). apply clamp_round_nonneg.
Qed.

Lemma matrix_cells_are_not_negative_witness :
  Forall (fun x => 0 <= x) (it_lags (Sample.pass 9))
  /\ 0 <= it_queue_at_start (Sample.pass 9).
Proof.
  assert (Hrun : run_trace Sample.holidays Sample.models Sample.inputs
                 = Ok Sample.trace) by (vm_compute; reflexivity).
  assert (Hn : nth_error Sample.trace 9 = Some (Sample.pass 9)) by reflexivity.
  assert (Ht : 0 <= total_patients Sample.inputs) by (simpl; lia).
  destruct (matrix_cells_are_not_negative _ _ _ _ _ _ Ht Hrun Hn)
    as [_ [_ [Hl [Hq _]]]].
  now split.
Defined.

End CellFacts.

Module FlowFacts.

Import Datetime Pandas Xgb App PyFacts FrameFacts LoopFacts DateFacts RunFacts
       MatrixCells LagFacts CellFacts.

(** ** Arrivals do not depend on the queue and wait-time boosters *)

Lemma slot_loop_arrivals m qb wb hol prev_hol total w slots :
  forall lags q1 q2 t1 t2,
  slot_loop m hol prev_hol total w slots lags q1 = Ok t1 ->
  slot_loop (with_queue_and_wait m qb wb) hol prev_hol total w slots lags q2
  = Ok t2 ->
  map (fun it => (it_dcount it, it_count_raw it, it_reception it, it_lags_next it)) t1
  = map (fun it => (it_dcount it, it_count_raw it, it_reception it, it_lags_next it)) t2.
Proof.
  induction slots as [| ts rest IH]; intros lags q1 q2 t1 t2 H1 H2;
    simpl in H1, H2.
  - injection H1 as <-. injection H2 as <-. reflexivity.
  - apply bind_Ok in H1. destruct H1 as [a [Ha H1]].
    apply bind_Ok in H1. destruct H1 as [ta [Hta H1]]. injection H1 as <-.
    apply bind_Ok in H2. destruct H2 as [c [Hc H2]].
    apply bind_Ok in H2. destruct H2 as [tc [Htc H2]]. injection H2 as <-.
    pose proof (slot_body_pass _ _ _ _ _ _ _ _ _ Ha) as Pa.
    pose proof (slot_body_pass _ _ _ _ _ _ _ _ _ Hc) as Pc.
    assert (Ed : it_dcount a = it_dcount c)
      by (rewrite (pass_dcount Pa), (pass_dcount Pc); reflexivity).
    assert (Er : it_count_raw a = it_count_raw c).
    { pose proof (pass_count_raw Pa) as Ra. pose proof (pass_count_raw Pc) as Rc.
      cbn [with_queue_and_wait count_model] in Rc. rewrite Ed in Ra. congruence. }
    assert (Ec : it_reception a = it_reception c)
      by (rewrite (pass_reception Pa), (pass_reception Pc), Er; reflexivity).
    assert (El : it_lags_next a = it_lags_next c)
      by (rewrite (pass_lags_next Pa), (pass_lags_next Pc), Ec; reflexivity).
    cbn [map]. rewrite Ed, Er, Ec, El. f_equal.
    rewrite El in Hta. exact (IH _ _ _ _ _ Hta Htc).
Qed.

(** X10. The predicted arrivals are the count booster's work alone: two
    runs that both return and differ only in their queue and wait-time
    boosters build the same count matrices and lag lists and predict
    the same arrivals in every slot. *)
Theorem arrivals_ignore_queue_and_wait jp m qb wb inp t1 t2
    (H1 : run_trace jp m inp = Ok t1)
    (H2 : run_trace jp (with_queue_and_wait m qb wb) inp = Ok t2) :
  map it_dcount t1 = map it_dcount t2
  /\ map (fun it => predicted_arrivals (it_row it)) t1
     = map (fun it => predicted_arrivals (it_row it)) t2
  /\ map it_lags_next t1 = map it_lags_next t2.
Proof.
  destruct (run_trace_pass _ _ _ _ H1) as [ph1 [_ [_ Hall1]]].
  destruct (run_trace_pass _ _ _ _ H2) as [ph2 [_ [_ Hall2]]].
  apply run_trace_Ok in H1. destruct H1 as [p1 [Hp1 [_ Hl1]]].
  apply run_trace_Ok in H2. destruct H2 as [p2 [Hp2 [_ Hl2]]].
  assert (p1 = p2) by congruence. subst p2.
  pose proof (slot_loop_arrivals _ _ _ _ _ _ _ _ _ _ _ _ _ Hl1 Hl2) as E.
  split; [| split].
  - apply (f_equal (map (fun x => fst (fst (fst x))))) in E.
    now rewrite !map_map in E.
  - apply (f_equal (map (fun x => snd (fst x)))) in E.
    rewrite !map_map in E. cbn [fst snd] in E.
    rewrite (map_ext_in (fun it => predicted_arrivals (it_row it)) it_reception t1),
            (map_ext_in (fun it => predicted_arrivals (it_row it)) it_reception t2);
      trivial.
    + intros it Hin. apply In_nth_error in Hin. destruct Hin as [n Hn].
      now rewrite (pass_row (Hall2 n it Hn)).
    + intros it Hin. apply In_nth_error in Hin. destruct Hin as [n Hn].
      now rewrite (pass_row (Hall1 n it Hn)).
  - apply (f_equal (map snd)) in E. now rewrite !map_map in E.
Qed.

Lemma arrivals_ignore_queue_and_wait_witness :
  map (fun it => predicted_queue (it_row it)) Sample.trace
  <> map (fun it => predicted_queue (it_row it)) Sample.trace_steady
  /\ map (fun it => predicted_arrivals (it_row it)) Sample.trace
     = map (fun it => predicted_arrivals (it_row it)) Sample.trace_steady.
Proof.
  assert (H1 : run_trace Sample.holidays Sample.models Sample.inputs
               = Ok Sample.trace) by (vm_compute; reflexivity).
  assert (H2 : run_trace Sample.holidays
                 (with_queue_and_wait Sample.models Sample.queue_steady
                                      Sample.wait_flat)
                 Sample.inputs
               = Ok Sample.trace_steady) by (vm_compute; reflexivity).
  split.
  - vm_compute. discriminate.
  - apply (arrivals_ignore_queue_and_wait _ _ _ _ _ _ _ H1 H2).
Defined.

(** ** A schema the matrix constructor refuses *)

Lemma slot_loop_first_raise m hol prev_hol total w ts rest lags q e :
  slot_body m hol prev_hol total w lags q ts = Raise e ->
  slot_loop m hol prev_hol total w (ts :: rest) lags q = Raise e.
Proof. intros H. cbn [slot_loop]. now rewrite H. Qed.

Lemma time_slots_cons d :
  exists rest, time_slots d = mkts d 480 :: rest.
Proof. rewrite time_slots_eq. cbn [seq map]. eexists. reflexivity. Qed.

Lemma forallb_false {A : Type} (p : A -> bool) (l : list A) :
  forallb p l = false <-> exists x, In x l /\ p x = false.
Proof.
  induction l as [| a l IH]; simpl.
  - split; [discriminate | intros [x [[] _]]].
  - rewrite andb_false_iff, IH. split.
    + intros [H | [x [Hin Hx]]]; eauto.
    + intros [x [[-> | Hin] Hx]]; eauto.
Qed.

(** A schema with a repeated name or a name the constructor does not
    accept yields no matrix, whatever the cells. *)
Lemma select_matrix_refused cols f df :
  laid_out cols f df ->
  unique cols = false \/ forallb valid_feature_name cols = false ->
  is_ok (bind (getitem_list df cols) make_DMatrix) = false.
Proof.
  intros Hl [U | V].
  - now apply (select_matrix_repeated _ _ _ Hl).
  - rewrite (select_matrix _ _ _ Hl). apply make_DMatrix_refuses.
    right. left. rewrite columns_cells.
    apply forallb_false in V. destruct V as [x [Hin Hx]].
    apply forallb_false. exists x. split; trivial.
    now apply in_flat_map_filter.
Qed.

(** X11. A schema that repeats a column name, or lists a name with [[],
    []] or [<] in it, is fatal: the matrix constructor refuses the first
    slot's frame, so the run returns no table, whatever the inputs, the
    holiday table and the boosters are. *)
Theorem refused_schema_is_fatal jp m inp
    (Hschema : schema_accepted (count_cols m) = false
               \/ schema_accepted (multi_cols m) = false) :
  is_ok (run jp m inp) = false /\ is_ok (run_trace jp m inp) = false.
Proof.
  assert (Hsplit : forall cols, schema_accepted cols = false ->
            unique cols = false \/ forallb valid_feature_name cols = false)
    by (intros cols H; now apply andb_false_iff in H).
  assert (Hbody : forall hol ph lags q ts,
            is_ok (slot_body m hol ph (total_patients inp) (weather inp) lags q ts)
            = false).
  { intros hol ph lags q ts. unfold slot_body.
    destruct Hschema as [H | H]; apply Hsplit in H.
    - pose proof (select_matrix_refused _ _ _
                    (laid_out_df_count m hol ph (total_patients inp)
                       (weather inp) lags ts) H) as R.
      unfold dcount_of.
      destruct (bind (getitem_list _ (count_cols m)) make_DMatrix);
        [discriminate | reflexivity].
    - destruct (dcount_of _ _ _ _ _ _ _) as [dc |]; trivial. cbn [bind].
      destruct (count_model m dc) as [raw |]; trivial. cbn [bind].
      pose proof (select_matrix_refused _ _ _
                    (laid_out_df_multi m hol ph (total_patients inp)
                       (weather inp) (Py.clamp_round raw) q ts) H) as R.
      unfold dmulti_of.
      destruct (bind (getitem_list _ (multi_cols m)) make_DMatrix);
        [discriminate | reflexivity]. }
  assert (Ht : is_ok (run_trace jp m inp) = false).
  { unfold run_trace, is_prev_holiday.
    destruct (prev_date inp) as [p |]; trivial. cbn [bind].
    destruct (time_slots_cons (target_date inp)) as [rest ->].
    cbn [slot_loop].
    specialize (Hbody (is_holiday jp inp) (non_working_day jp p) [0; 0; 0] 0
                      (mkts (target_date inp) 480)).
    destruct (slot_body m _ _ _ _ _ _ _); [discriminate | reflexivity]. }
  split; trivial. unfold run.
  destruct (run_trace jp m inp); [discriminate | reflexivity].
Qed.

Lemma refused_schema_is_fatal_witness :
  is_ok (run Sample.holidays
           (mkModels Sample.arrivals Sample.wait Sample.queue
                     ["hour"; "minute"; "lag[30]"]%string
                     (multi_cols Sample.models))
           Sample.inputs) = false
  /\ is_ok (run Sample.holidays
              (mkModels Sample.arrivals Sample.wait Sample.queue
                        (count_cols Sample.models)
                        ["hour"; "reception_count"; "hour"]%string)
              Sample.inputs) = false.
Proof.
  split.
  - apply (refused_schema_is_fatal Sample.holidays
             (mkModels Sample.arrivals Sample.wait Sample.queue
                       ["hour"; "minute"; "lag[30]"]%string
                       (multi_cols Sample.models))
             Sample.inputs).
    left. reflexivity.
  - apply (refused_schema_is_fatal Sample.holidays
             (mkModels Sample.arrivals Sample.wait Sample.queue
                       (count_cols Sample.models)
                       ["hour"; "reception_count"; "hour"]%string)
             Sample.inputs).
    right. reflexivity.
Defined.

End FlowFacts.

Module ContextFacts.

Import Datetime Pandas Xgb App PyFacts FrameFacts LoopFacts DateFacts RunFacts
       MatrixCells LagFacts CellFacts FlowFacts.

(** The loop body reads a timestamp through its minutes only, and the
    weather through its two flags only. *)
Lemma slot_body_context m hol prev_hol total w1 w2 lags q ts1 ts2 :
  rain_flag w1 = rain_flag w2 -> snow_flag w1 = snow_flag w2 ->
  ts_minutes ts1 = ts_minutes ts2 ->
  slot_body m hol prev_hol total w2 lags q ts2
  = match slot_body m hol prev_hol total w1 lags q ts1 with
    | Ok it => Ok (retime ts2 it)
    | Raise e => Raise e
    end.
Proof.
  intros Hr Hs Ht.
  unfold slot_body, dcount_of, dmulti_of, df_count, df_multi, strftime_HM,
         hour, minute.
  rewrite Hr, Hs, Ht.
  destruct (bind (getitem_list _ (count_cols m)) make_DMatrix) as [dc |];
    cbn [bind]; trivial.
  destruct (count_model m dc) as [craw |]; cbn [bind]; trivial.
  destruct (bind (getitem_list _ (multi_cols m)) make_DMatrix) as [dm |];
    cbn [bind]; trivial.
  destruct (queue_model m dm) as [qraw |]; cbn [bind]; trivial.
  destruct (waittime_model m dm) as [wraw |]; cbn [bind]; trivial.
Qed.

Lemma slot_loop_context m hol prev_hol total w1 w2 :
  rain_flag w1 = rain_flag w2 -> snow_flag w1 = snow_flag w2 ->
  forall slots1 slots2, map ts_minutes slots1 = map ts_minutes slots2 ->
  forall lags q,
  bind (slot_loop m hol prev_hol total w2 slots2 lags q)
       (fun t => Ok (map it_row t))
  = bind (slot_loop m hol prev_hol total w1 slots1 lags q)
         (fun t => Ok (map it_row t)).
Proof.
  intros Hr Hs.
  induction slots1 as [| ts1 rest1 IH]; intros slots2 Hm lags q;
    destruct slots2 as [| ts2 rest2]; try discriminate; trivial.
  cbn [map] in Hm. injection Hm as Ht Hrest.
  cbn [slot_loop].
  rewrite (slot_body_context m hol prev_hol total w1 w2 lags q ts1 ts2 Hr Hs Ht).
  destruct (slot_body m hol prev_hol total w1 lags q ts1) as [it |];
    cbn [bind]; trivial.
  cbn [retime it_lags_next it_queue_next].
  specialize (IH rest2 Hrest (it_lags_next it) (it_queue_next it)).
  destruct (slot_loop m hol prev_hol total w2 rest2 _ _) as [t2 |],
           (slot_loop m hol prev_hol total w1 rest1 _ _) as [t1 |];
    cbn [bind] in IH |- *; try discriminate; try congruence.
  cbn [map retime it_row]. congruence.
Qed.

(** X12. The table depends on the calendar and the weather through four
    flags only.  Two runs of the same models on the same patient count
    whose target dates have the same holiday flag and the same flag for
    the day before, and whose weathers have the same rain and snow flags,
    return the same table when both return, whatever the two dates and
    the two weather strings are. *)
Theorem table_depends_on_four_flags jp1 jp2 m inp1 inp2 rows1 rows2
    (Hhol : is_holiday jp1 inp1 = is_holiday jp2 inp2)
    (Hprev : is_prev_holiday jp1 inp1 = is_prev_holiday jp2 inp2)
    (Htotal : total_patients inp1 = total_patients inp2)
    (Hrain : rain_flag (weather inp1) = rain_flag (weather inp2))
    (Hsnow : snow_flag (weather inp1) = snow_flag (weather inp2))
    (Hrun1 : run jp1 m inp1 = Ok rows1)
    (Hrun2 : run jp2 m inp2 = Ok rows2) :
  rows1 = rows2.
Proof.
  assert (E : run jp1 m inp1 = run jp2 m inp2).
  { unfold run, run_trace. rewrite Hhol, Hprev, Htotal.
    destruct (is_prev_holiday jp2 inp2) as [ph | e]; cbn [bind];
      [| reflexivity].
    symmetry. apply slot_loop_context; [exact Hrain | exact Hsnow |].
    rewrite !time_slots_eq, !map_map. reflexivity. }
  congruence.
Qed.

Lemma table_depends_on_four_flags_witness :
  target_date Sample.inputs_june <> target_date Sample.inputs_september
  /\ weather Sample.inputs_june <> weather Sample.inputs_september
  /\ Sample.rows_june = Sample.rows_september.
Proof.
  split; [discriminate | split; [discriminate |]].
  apply (table_depends_on_four_flags Sample.holidays Sample.holidays
           Sample.models Sample.inputs_june Sample.inputs_september).
  - reflexivity.
  - reflexivity.
  - reflexivity.
  - reflexivity.
  - reflexivity.
  - vm_compute. reflexivity.
  - vm_compute. reflexivity.
Defined.

(** ** Composition of the loop, and the first failure *)

Lemma state_before_length_cons lags q it tl :
  state_before lags q (it :: tl) (length (it :: tl))
  = state_before (it_lags_next it) (it_queue_next it) tl (length tl).
Proof.
  destruct tl as [| x tl']; [reflexivity |].
  cbn [length state_before nth_error].
  destruct (nth_error (x :: tl') (length tl')) eqn:E; [reflexivity |].
  apply nth_error_None in E. cbn [length] in E. lia.
Qed.

(** The loop over two runs of slots on end is the loop over the first,
    then the loop over the second from the state the first one left. *)
Lemma slot_loop_app m hol prev_hol total w slots1 slots2 : forall lags q,
  slot_loop m hol prev_hol total w (slots1 ++ slots2) lags q
  = bind (slot_loop m hol prev_hol total w slots1 lags q) (fun t1 =>
      let st := state_before lags q t1 (length t1) in
      bind (slot_loop m hol prev_hol total w slots2 (fst st) (snd st))
           (fun t2 => Ok (t1 ++ t2))).
Proof.
  induction slots1 as [| ts rest IH]; intros lags q.
  - cbn [app slot_loop bind length state_before fst snd].
    destruct (slot_loop m hol prev_hol total w slots2 lags q); reflexivity.
  - cbn [app slot_loop].
    destruct (slot_body m hol prev_hol total w lags q ts) as [it |];
      cbn [bind]; trivial.
    rewrite IH.
    destruct (slot_loop m hol prev_hol total w rest _ _) as [t1 |];
      cbn [bind]; trivial.
    rewrite state_before_length_cons. cbv zeta.
    destruct (slot_loop m hol prev_hol total w slots2 _ _); reflexivity.
Qed.

(** X13. The first failure ends the run.  If the first [k] slots pass
    and the body of the next slot raises an exception, from the matrix
    constructor or from any of the three boosters, the run raises that
    exception: the rows of the slots that passed are not returned. *)
Theorem first_failure_ends_the_run jp m inp prev_hol k passed ts e
    (Hprev : is_prev_holiday jp inp = Ok prev_hol)
    (Hpassed : slot_loop m (is_holiday jp inp) prev_hol (total_patients inp)
                 (weather inp) (firstn k (time_slots (target_date inp)))
                 [0; 0; 0] 0 = Ok passed)
    (Hts : nth_error (time_slots (target_date inp)) k = Some ts)
    (Hfail : slot_body m (is_holiday jp inp) prev_hol (total_patients inp)
               (weather inp)
               (fst (state_before [0; 0; 0] 0 passed (length passed)))
               (snd (state_before [0; 0; 0] 0 passed (length passed)))
               ts = Raise e) :
  run jp m inp = Raise e /\ run_trace jp m inp = Raise e.
Proof.
  assert (Ht : run_trace jp m inp = Raise e).
  { unfold run_trace. rewrite Hprev. cbn [bind].
    rewrite <- (firstn_skipn k (time_slots (target_date inp))) at 1.
    rewrite slot_loop_app, Hpassed. cbn [bind]. cbv zeta.
    assert (Hskip : exists rest,
              skipn k (time_slots (target_date inp)) = ts :: rest).
    { clear - Hts. revert k Hts.
      induction (time_slots (target_date inp)) as [| x l IH]; intros k Hts.
      - destruct k; discriminate.
      - destruct k as [| k]; cbn [skipn].
        + injection Hts as ->. eauto.
        + apply IH. exact Hts. }
    destruct Hskip as [rest ->].
    rewrite (slot_loop_first_raise _ _ _ _ _ _ rest _ _ _ Hfail).
    reflexivity. }
  split; [| exact Ht]. unfold run. rewrite Ht. reflexivity.
Qed.

Lemma first_failure_ends_the_run_witness :
  run Sample.holidays (with_waittime Sample.models Sample.wait_fails_at_nine)
      Sample.inputs
  = Raise PredictError.
Proof.
  apply (first_failure_ends_the_run Sample.holidays
           (with_waittime Sample.models Sample.wait_fails_at_nine)
           Sample.inputs false 2 (firstn 2 Sample.trace)
           (mkts (mkdate 2025 6 10) 540) PredictError).
  - reflexivity.
  - vm_compute. reflexivity.
  - reflexivity.
  - vm_compute. reflexivity.
Defined.

End ContextFacts.

Module RoundFacts.

Import Py PyFacts.

Lemma floor_bounds (x : Q) :
  (inject_Z (Qfloor x) <= x)%Q /\ (x < inject_Z (Qfloor x) + 1)%Q.
Proof.
  split; [apply Qfloor_le |].
  pose proof (Qlt_floor x) as H. rewrite inject_Z_plus in H. exact H.
Qed.

Lemma inject_Z_le_iff (a b : Z) : (inject_Z a <= inject_Z b)%Q <-> a <= b.
Proof. rewrite <- Zle_Qle. tauto. Qed.

Lemma round_floor_or_next (x : Q) :
  round x = Qfloor x \/ round x = Qfloor x + 1.
Proof. destruct (round_cases x) as [[H _] | [H _]]; auto. Qed.

Lemma round_mono (x y : Q) : (x <= y)%Q -> round x <= round y.
Proof.
  intros Hxy. pose proof (Qfloor_resp_le x y Hxy) as Hf.
  destruct (Z_lt_le_dec (Qfloor x) (Qfloor y)) as [Hlt | Hge].
  - destruct (round_floor_or_next x) as [-> | ->],
             (round_floor_or_next y) as [-> | ->]; lia.
  - assert (E : Qfloor y = Qfloor x) by lia.
    unfold round. rewrite E.
    destruct (Qcompare_spec (x - inject_Z (Qfloor x)) (1 # 2)),
             (Qcompare_spec (y - inject_Z (Qfloor x)) (1 # 2));
      try lia; try (exfalso; lra);
      destruct (Z.even (Qfloor x)); lia.
Qed.

(** X14. A larger score never gives a smaller prediction: rounding and
    clamping is monotone. *)
Theorem clamp_round_is_monotone (x y : Q) (Hxy : (x <= y)%Q) :
  clamp_round x <= clamp_round y.
Proof. unfold clamp_round. pose proof (round_mono x y Hxy). lia. Qed.

Lemma clamp_round_is_monotone_witness :
  clamp_round (-24 # 10) <= clamp_round (76 # 10).
Proof.
  apply clamp_round_is_monotone. vm_compute. discriminate.
Defined.

Lemma round_half_tie (n : Z) :
  round (inject_Z n + (1 # 2)) = if Z.even n then n else n + 1.
Proof.
  assert (Hf : Qfloor (inject_Z n + (1 # 2)) = n).
  { destruct (floor_bounds (inject_Z n + (1 # 2))) as [Hlo Hhi].
    set (f := Qfloor (inject_Z n + (1 # 2))) in *.
    destruct (Z_lt_le_dec f n) as [L | G].
    - assert (H : (inject_Z (f + 1) <= inject_Z n)%Q)
        by (apply inject_Z_le_iff; lia).
      rewrite inject_Z_plus in H. change (inject_Z 1) with 1%Q in H. lra.
    - destruct (Z_lt_le_dec n f) as [L' | G']; [| lia].
      assert (H : (inject_Z (n + 1) <= inject_Z f)%Q)
        by (apply inject_Z_le_iff; lia).
      rewrite inject_Z_plus in H. change (inject_Z 1) with 1%Q in H. lra. }
  unfold round. rewrite Hf.
  destruct (Qcompare_spec (inject_Z n + (1 # 2) - inject_Z n) (1 # 2));
    trivial; exfalso; lra.
Qed.

(** X15. What rounding and clamping does to a score: the prediction is 0
    exactly for scores up to one half; a whole score is kept, raised to 0
    when negative; a score halfway between two integers goes to the even
    one; and the prediction is within one half of a score that is not
    below minus one half. *)
Theorem clamp_round_thresholds (x : Q) (n : Z) :
  (clamp_round x = 0 <-> (x <= 1 # 2)%Q)
  /\ (1 <= clamp_round x <-> (1 # 2 < x)%Q)
  /\ clamp_round (inject_Z n) = Z.max 0 n
  /\ round (inject_Z n + (1 # 2)) = (if Z.even n then n else n + 1)
  /\ Z.even (round (inject_Z n + (1 # 2))) = true
  /\ ((- (1 # 2) <= x)%Q ->
      (Qabs (inject_Z (clamp_round x) - x) <= 1 # 2)%Q).
Proof.
  assert (Hzero : clamp_round x = 0 <-> (x <= 1 # 2)%Q).
  { unfold clamp_round.
    destruct (floor_bounds x) as [Hlo Hhi].
    destruct (round_cases x) as [[Hr Hc] | [Hr Hc]].
    - split.
      + intros H. assert (Hf : Qfloor x <= 0) by lia.
        apply inject_Z_le_iff in Hf. change (inject_Z 0) with 0%Q in Hf. lra.
      + intros H. destruct (Z_lt_le_dec 0 (Qfloor x)) as [L | G]; [| lia].
        exfalso. assert (Hf : (inject_Z 1 <= inject_Z (Qfloor x))%Q)
          by (apply inject_Z_le_iff; lia).
        change (inject_Z 1) with 1%Q in Hf. lra.
    - split.
      + intros H. assert (Hf : Qfloor x + 1 <= 0) by lia.
        apply inject_Z_le_iff in Hf. rewrite inject_Z_plus in Hf.
        change (inject_Z 1) with 1%Q in Hf. change (inject_Z 0) with 0%Q in Hf.
        lra.
      + intros H. destruct (Z_lt_le_dec (Qfloor x) 0) as [L | G]; [lia |].
        exfalso. assert (Hf : (inject_Z 0 <= inject_Z (Qfloor x))%Q)
          by (apply inject_Z_le_iff; lia).
        change (inject_Z 0) with 0%Q in Hf.
        (* the score is one half exactly and its floor is 0, an even number *)
        assert (Hx : (x == 1 # 2)%Q) by lra.
        assert (Hf0 : Qfloor x = 0).
        { rewrite (Qfloor_comp _ _ Hx). reflexivity. }
        unfold round in Hr. rewrite Hf0 in Hr.
        destruct (Qcompare_spec (x - inject_Z 0) (1 # 2)) as [E | L' | G'];
          simpl in Hr; try discriminate.
        change (inject_Z 0) with 0%Q in G'. lra. }
  split; [exact Hzero | split; [| split; [| split; [| split]]]].
  - pose proof (clamp_round_nonneg x) as Hn. split.
    + intros H. destruct (Qlt_le_dec (1 # 2) x) as [L | G]; trivial.
      apply Hzero in G. lia.
    + intros H. destruct (Z.eq_dec (clamp_round x) 0) as [E | N]; [| lia].
      apply Hzero in E. lra.
  - unfold clamp_round. now rewrite round_inject_Z.
  - apply round_half_tie.
  - rewrite round_half_tie. destruct (Z.even n) eqn:E; trivial.
    rewrite Z.even_add, E. reflexivity.
  - intros Hx. pose proof (round_nearest x) as Hnear.
    apply Qabs_Qle_condition in Hnear. apply Qabs_Qle_condition.
    unfold clamp_round.
    destruct (Z.max_spec 0 (round x)) as [[_ ->] | [Hneg ->]]; trivial.
    assert (Hr : (inject_Z (round x) <= inject_Z 0)%Q)
      by (apply inject_Z_le_iff; lia).
    change (inject_Z 0) with 0%Q in *. split; lra.
Qed.

Lemma clamp_round_thresholds_witness :
  (Qabs (inject_Z (clamp_round (76 # 10)) - (76 # 10)) <= 1 # 2)%Q.
Proof.
  apply (proj2 (proj2 (proj2 (proj2 (proj2
           (clamp_round_thresholds (76 # 10) 0)))))).
  vm_compute. discriminate.
Defined.

End RoundFacts.
